(** * tcping: the probe scheduler and its statistics (package [ping])

    A shallow embedding of [ping/ping.go]: protocol identifiers and their
    parsing, the classification of probe errors, the scheduling loop of
    [Pinger.Ping] with its stop channel, the accumulation done by
    [Pinger.logStats], the report computed by [Pinger.Summarize] and the
    legacy [Result] record. Go's [int] and [time.Duration] are 64-bit signed
    integers, modelled as [Z] with the wrap-around written out. *)

From Stdlib Require Import ZArith List Bool Ascii String Lia DecimalString.
From Stdlib Require Import QArith Qround Lqa.
From Stdlib Require Import Floats Uint63 Sorted Permutation OrderedTypeEx.
Import ListNotations.

Local Open Scope Z_scope.

(** ** 64-bit signed integers *)

Module Int64.

Definition modulus : Z := 2 ^ 64.
Definition min_int : Z := - 2 ^ 63.
Definition max_int : Z := 2 ^ 63 - 1.

(** Two's complement wrap-around of Go's [int], [int64] and [time.Duration]. *)
Definition wrap (z : Z) : Z := (z + 2 ^ 63) mod modulus - 2 ^ 63.

Definition in_range (z : Z) : Prop := min_int <= z <= max_int.

Definition add (a b : Z) : Z := wrap (a + b).
Definition sub (a b : Z) : Z := wrap (a - b).

(** Go's [/] on signed integers truncates toward zero; a zero divisor is a
    run-time panic ([None]); [MinInt64 / -1] wraps instead of panicking. *)
Definition div (a b : Z) : option Z :=
  if b =? 0 then None else Some (wrap (Z.quot a b)).

End Int64.

(** ** Protocol identifiers ([Protocol], [Protocol.String], [NewProtocol]) *)

Module Protocol.

Local Open Scope string_scope.

(** [type Protocol int] with the [iota] constants. *)
Definition Protocol : Type := Z.

Definition TCP : Protocol := 0%Z.
Definition HTTP : Protocol := 1%Z.
Definition HTTPS : Protocol := 2%Z.

(** [func (protocol Protocol) String() string] *)
Definition String (protocol : Protocol) : string :=
  if (protocol =? TCP)%Z then "tcp"
  else if (protocol =? HTTP)%Z then "http"
  else if (protocol =? HTTPS)%Z then "https"
  else "unknown".

(** *** [strings.ToLower] *)

Definition isUpperASCII (c : ascii) : bool :=
  ((65 <=? nat_of_ascii c) && (nat_of_ascii c <=? 90))%nat.

(** [c >= utf8.RuneSelf] *)
Definition isRuneSelf (c : ascii) : bool := (128 <=? nat_of_ascii c)%nat.

Fixpoint isASCII (s : string) : bool :=
  match s with
  | EmptyString => true
  | String.String c r => negb (isRuneSelf c) && isASCII r
  end.

Fixpoint hasUpper (s : string) : bool :=
  match s with
  | EmptyString => false
  | String.String c r => isUpperASCII c || hasUpper r
  end.

(** [c += 'a' - 'A'] on the upper-case ASCII letters. *)
Definition lowerByte (c : ascii) : ascii :=
  if isUpperASCII c then ascii_of_nat (nat_of_ascii c + 32) else c.

Fixpoint lowerASCII (s : string) : string :=
  match s with
  | EmptyString => EmptyString
  | String.String c r => String.String (lowerByte c) (lowerASCII r)
  end.

Section ToLower.

(** [strings.Map(unicode.ToLower, s)], the path [strings.ToLower] takes on a
    string that holds a byte outside ASCII. It depends on the Unicode case
    tables of Go's standard library, which are not part of this package, and
    is taken as a parameter. *)
Variable mapUnicodeToLower : string -> string.

Definition ToLower (s : string) : string :=
  if isASCII s then
    if hasUpper s then lowerASCII s else s
  else mapUnicodeToLower s.

(** An [error] built by [fmt.Errorf] without a [%w] verb, by its text. *)
Definition Errorf_not_support (protocol : string) : string :=
  "protocol " ++ protocol ++ " not support".

(** [func NewProtocol(protocol string) (Protocol, error)]: the switch compares
    the lowered text with the three [String()] values in order; the error is
    [None] for Go's [nil]. *)
Definition NewProtocol (protocol : string) : Protocol * option string :=
  let l := ToLower protocol in
  if String.eqb l (String TCP) then (TCP, None)
  else if String.eqb l (String HTTP) then (HTTP, None)
  else if String.eqb l (String HTTPS) then (HTTPS, None)
  else (0%Z, Some (Errorf_not_support protocol)).

End ToLower.

End Protocol.

(** ** Go error values ([error], [errors.Is], [Timeout], [Error]) *)

Module GoError.

Local Open Scope string_scope.

(** What the platform and Go's standard library fix and this package only
    uses: [strconv.Quote] (the [%q] verb of [url.Error.Error]), the text of a
    [syscall.Errno], and the three errno values [syscall.Errno.Timeout]
    tests. *)
Record Platform := {
  Quote : string -> string;
  errnoText : Z -> string;
  EAGAIN : Z;
  EWOULDBLOCK : Z;
  ETIMEDOUT : Z
}.

(** The values of linux/amd64, for evaluating examples: [Quote] as
    [strconv.Quote] is on a text without a quote, a backslash or a character
    that is not printable ASCII, and the texts of the errno values a
    connection attempt meets. *)
Definition doubleQuote : string := String (ascii_of_nat 34) EmptyString.

Definition linux : Platform := {|
  Quote := fun s => doubleQuote ++ s ++ doubleQuote;
  errnoText := fun code =>
    if (code =? 101)%Z then "network is unreachable"
    else if (code =? 110)%Z then "connection timed out"
    else if (code =? 111)%Z then "connection refused"
    else if (code =? 113)%Z then "no route to host"
    else "errno " ++ NilZero.string_of_int (Z.to_int code);
  EAGAIN := 11;
  EWOULDBLOCK := 11;
  ETIMEDOUT := 110
|}.

(** The dynamic types of the errors a probe can hand to the scheduler. A
    field of type [error] is never Go's [nil] here: the standard library
    fills [Err] on every path that builds one of the wrappers.
    - [UrlError]: [*url.Error{Op, URL, Err}];
    - [OpError]: [*net.OpError{Op, Net, Source, Addr, Err}], the addresses by
      their [String()], [None] for a nil address;
    - [SyscallError]: [*os.SyscallError{Syscall, Err}];
    - [Errno]: [syscall.Errno];
    - [DeadlineExceeded], [Canceled]: the two sentinel values of [context];
    - [ErrorString]: [errors.New(text)];
    - [WrapError]: [fmt.Errorf] with one [%w] verb, by its text and the
      wrapped error;
    - [Custom]: any other error type without [Unwrap]: its text, the result
      of its [Timeout()] method ([None] when it has none), whether it has a
      [Temporary()] method, and what its [Is] method (if any) answers for
      [context.DeadlineExceeded] and for [context.Canceled]. *)
Inductive error : Type :=
| UrlError (Op URL : string) (Err : error)
| OpError (Op Net : string) (Source Addr : option string) (Err : error)
| SyscallError (Syscall : string) (Err : error)
| Errno (code : Z)
| DeadlineExceeded
| Canceled
| ErrorString (text : string)
| WrapError (text : string) (Err : error)
| Custom (text : string) (timeout : option bool) (hasTemporary : bool)
         (isDeadlineExceeded isCanceled : bool).

(** The targets [errors.Is] is called with in this package. *)
Inductive sentinel : Type := TargetDeadlineExceeded | TargetCanceled.

Section Methods.

Variable pf : Platform.

(** [Timeout() bool] where the dynamic type has the method, [None] where it
    has not. The wrappers ask their [Err] through a type assertion to
    [interface{ Timeout() bool }]; [*net.OpError] first looks through an
    [*os.SyscallError]. *)
Fixpoint Timeout (e : error) : option bool :=
  match e with
  | UrlError _ _ err =>
      Some (match Timeout err with Some t => t | None => false end)
  | OpError _ _ _ _ err =>
      match err with
      | SyscallError _ ne =>
          Some (match Timeout ne with Some t => t | None => false end)
      | _ => Some (match Timeout err with Some t => t | None => false end)
      end
  | SyscallError _ err =>
      Some (match Timeout err with Some t => t | None => false end)
  | Errno code =>
      Some ((code =? EAGAIN pf)%Z || (code =? EWOULDBLOCK pf)%Z
            || (code =? ETIMEDOUT pf)%Z)
  | DeadlineExceeded => Some true
  | Canceled => None
  | ErrorString _ => None
  | WrapError _ _ => None
  | Custom _ timeout _ _ _ => timeout
  end.

(** Whether the dynamic type satisfies [net.Error] ([Error], [Timeout] and
    [Temporary]); [*os.SyscallError] has no [Temporary]. *)
Definition isNetError (e : error) : bool :=
  match e with
  | UrlError _ _ _ => true
  | OpError _ _ _ _ _ => true
  | SyscallError _ _ => false
  | Errno _ => true
  | DeadlineExceeded => true
  | Canceled => false
  | ErrorString _ => false
  | WrapError _ _ => false
  | Custom _ timeout hasTemporary _ _ =>
      match timeout with Some _ => hasTemporary | None => false end
  end.

(** Whether the dynamic type is [*url.Error]. *)
Definition isUrlError (e : error) : bool :=
  match e with
  | UrlError _ _ _ => true
  | _ => false
  end.

(** The error a [*net.OpError] holds inside an [*os.SyscallError]: the
    error of the operating system. *)
Definition osError (e : error) : option error :=
  match e with
  | OpError _ _ _ _ (SyscallError _ os) => Some os
  | _ => None
  end.

(** [Error() string] *)
Fixpoint Error (e : error) : string :=
  match e with
  | UrlError op url err => op ++ " " ++ Quote pf url ++ ": " ++ Error err
  | OpError op net source addr err =>
      let s := op in
      let s := if String.eqb net "" then s else s ++ " " ++ net in
      let s := match source with Some a => s ++ " " ++ a | None => s end in
      let s := match addr with
               | Some a =>
                   (match source with Some _ => s ++ "->" | None => s ++ " " end)
                   ++ a
               | None => s
               end in
      s ++ ": " ++ Error err
  | SyscallError syscall err => syscall ++ ": " ++ Error err
  | Errno code => errnoText pf code
  | DeadlineExceeded => "context deadline exceeded"
  | Canceled => "context canceled"
  | ErrorString text => text
  | WrapError text _ => text
  | Custom text _ _ _ _ => text
  end.

(** [err == target] for a comparable sentinel target. *)
Definition same (e : error) (target : sentinel) : bool :=
  match e, target with
  | DeadlineExceeded, TargetDeadlineExceeded => true
  | Canceled, TargetCanceled => true
  | _, _ => false
  end.

(** The [Is(error) bool] method, where there is one, asked about a sentinel
    of [context]; [syscall.Errno.Is] knows only the [oserror] values. *)
Definition isMethod (e : error) (target : sentinel) : bool :=
  match e with
  | Custom _ _ _ isDeadlineExceeded isCanceled =>
      match target with
      | TargetDeadlineExceeded => isDeadlineExceeded
      | TargetCanceled => isCanceled
      end
  | _ => false
  end.

(** [errors.Is(err, target)]: identity, then the [Is] method, then
    [Unwrap]. *)
Fixpoint Is (e : error) (target : sentinel) : bool :=
  same e target || isMethod e target ||
  match e with
  | UrlError _ _ err => Is err target
  | OpError _ _ _ _ err => Is err target
  | SyscallError _ err => Is err target
  | WrapError _ err => Is err target
  | _ => false
  end.

End Methods.

End GoError.

(** ** Floating-point arithmetic ([float64])

    The statistics are computed on [float64] values. The operations the
    package and [gonum/stat] use are gathered in a record, so that the same
    definitions run on IEEE 754 binary64 ([float64], what the program does)
    and on exact rationals ([exact], the arithmetic without rounding). *)

Module Float.

Record Arith := {
  F : Type;
  fadd : F -> F -> F;
  fsub : F -> F -> F;
  fmul : F -> F -> F;
  fdiv : F -> F -> F;
  flt : F -> F -> bool;
  fle : F -> F -> bool;
  fisNaN : F -> bool;
  fNaN : F;
  (** [float64(n)] for an [int64] or [int] [n] *)
  ofInt64 : Z -> F;
  (** [int64(f)], [time.Duration(f)]: truncation toward zero *)
  toInt64 : F -> Z;
  (** the constant [num/den] written as a decimal literal *)
  ofDecimal : Z -> Z -> F
}.

(** *** IEEE 754 binary64, rounding to nearest even *)

Definition float64_ofInt64 (n : Z) : float :=
  let m := Z.abs n in
  let f := if (m <? 2 ^ 63)%Z then PrimFloat.of_uint63 (Uint63.of_Z m)
           else PrimFloat.mul (PrimFloat.of_uint63 (Uint63.of_Z (2 ^ 62)))
                              PrimFloat.two in
  if (n <? 0)%Z then PrimFloat.opp f else f.

(** The conversion of a value outside [int64], of an infinity or of a NaN is
    implementation-dependent in Go; amd64 yields the smallest [int64]. *)
Definition float64_toInt64 (f : float) : Z :=
  match Prim2SF f with
  | S754_zero _ => 0%Z
  | S754_finite sign m e =>
      let a := if (0 <=? e)%Z then (Zpos m * 2 ^ e)%Z
               else (Zpos m / 2 ^ (- e))%Z in
      let v := if sign then (- a)%Z else a in
      if ((Int64.min_int <=? v) && (v <=? Int64.max_int))%Z then v
      else Int64.min_int
  | S754_infinity _ => Int64.min_int
  | S754_nan => Int64.min_int
  end.

Definition float64 : Arith := {|
  F := float;
  fadd := PrimFloat.add;
  fsub := PrimFloat.sub;
  fmul := PrimFloat.mul;
  fdiv := PrimFloat.div;
  flt := PrimFloat.ltb;
  fle := PrimFloat.leb;
  fisNaN := PrimFloat.is_nan;
  fNaN := PrimFloat.nan;
  ofInt64 := float64_ofInt64;
  toInt64 := float64_toInt64;
  ofDecimal := fun num den =>
    PrimFloat.div (float64_ofInt64 num) (float64_ofInt64 den)
|}.

(** *** Exact rational arithmetic *)

Definition exact_toInt64 (q : Q) : Z := Z.quot (Qnum q) (Zpos (Qden q)).

Definition exact : Arith := {|
  F := Q;
  fadd := Qplus;
  fsub := Qminus;
  fmul := Qmult;
  fdiv := Qdiv;
  flt := fun a b => negb (Qle_bool b a);
  fle := Qle_bool;
  fisNaN := fun _ => false;
  fNaN := 0%Q;
  ofInt64 := inject_Z;
  toInt64 := exact_toInt64;
  ofDecimal := fun num den => Qdiv (inject_Z num) (inject_Z den)
|}.

End Float.

(** ** [gonum.org/v1/gonum/stat] (v0.15.0, as required by go.mod)

    [stat.Quantile] and [stat.Mean] as the package calls them: always with
    [weights == nil], so every weight is 1 and the sum of the weights is
    [float64(len(x))]. [None] is a run-time panic. *)

Module Stat.

Import Float.

Inductive CumulantKind : Type := Empirical | LinInterp.

Section WithArith.

Variable A : Arith.

Local Abbreviation F := (Float.F A).

(** [sort.Float64Slice.Less] and [cmp.Less]: NaN sorts before any number. *)
Definition less (a b : F) : bool :=
  flt A a b || (fisNaN A a && negb (fisNaN A b)).

(** [sort.Float64sAreSorted]: no element is less than its predecessor. *)
Fixpoint Float64sAreSorted (x : list F) : bool :=
  match x with
  | [] => true
  | a :: r =>
      match r with
      | [] => true
      | b :: _ => negb (less b a) && Float64sAreSorted r
      end
  end.

(** [floats.HasNaN] *)
Definition HasNaN (x : list F) : bool := existsb (fisNaN A) x.

(** The loop of [empiricalQuantile] from index [i] on: [cumsum] holds the
    weights of the elements before [x]; falling off the end is
    [panic("impossible")]. *)
Fixpoint empiricalLoop (fidx cumsum : F) (x : list F) : option F :=
  match x with
  | [] => None
  | xi :: rest =>
      let cumsum := fadd A cumsum (ofInt64 A 1) in
      if fle A fidx cumsum then Some xi
      else empiricalLoop fidx cumsum rest
  end.

Definition empiricalQuantile (p : F) (x : list F) (sumWeights : F) : option F :=
  let fidx := fmul A p sumWeights in
  empiricalLoop fidx (ofInt64 A 0) x.

(** The loop of [linInterpQuantile]; [prev] is [x[i-1]], [None] at
    [i == 0]. *)
Fixpoint linInterpLoop (fidx cumsum : F) (prev : option F) (x : list F)
  : option F :=
  match x with
  | [] => None
  | xi :: rest =>
      let cumsum := fadd A cumsum (ofInt64 A 1) in
      if fle A fidx cumsum then
        match prev with
        | None => Some xi
        | Some xp =>
            let t := fsub A cumsum fidx in
            Some (fadd A (fmul A t xp) (fmul A (fsub A (ofInt64 A 1) t) xi))
        end
      else linInterpLoop fidx cumsum (Some xi) rest
  end.


Definition linInterpQuantile (p : F) (x : list F) (sumWeights : F) : option F :=
  let fidx := fmul A p sumWeights in
  linInterpLoop fidx (ofInt64 A 0) None x.

(** [func Quantile(p float64, c CumulantKind, x, weights []float64) float64]
    with [weights == nil]. *)
Definition Quantile (p : F) (c : CumulantKind) (x : list F) : option F :=
  if negb (fle A (ofInt64 A 0) p && fle A p (ofInt64 A 1)) then
    None (* panic("stat: percentile out of bounds") *)
  else if (List.length x =? 0)%nat then
    None (* panic("stat: zero length slice") *)
  else if HasNaN x then Some (fNaN A)
  else if negb (Float64sAreSorted x) then
    None (* panic("x data are not sorted") *)
  else
    let sumWeights := ofInt64 A (Z.of_nat (List.length x)) in
    match c with
    | Empirical => empiricalQuantile p x sumWeights
    | LinInterp => linInterpQuantile p x sumWeights
    end.

(** [floats.Sum], summing from the left. *)
Definition Sum (x : list F) : F := fold_left (fadd A) x (ofInt64 A 0).

(** [func Mean(x, weights []float64) float64] with [weights == nil]. *)
Definition Mean (x : list F) : F :=
  fdiv A (Sum x) (ofInt64 A (Z.of_nat (List.length x))).

(** [slices.Sort]: ascending by [cmp.Less]. *)
Fixpoint insert (a : F) (l : list F) : list F :=
  match l with
  | [] => [a]
  | b :: r => if less a b then a :: l else b :: insert a r
  end.

Definition Sort (l : list F) : list F := fold_right insert [] l.

End WithArith.

End Stat.

(** ** The scheduler and its statistics ([Stats], [Pinger]) *)

Module Ping.

Local Open Scope string_scope.

(** [type Stats struct]: the result of one probe; [Error] is [None] for
    Go's [nil]; [Meta] by its sorted [key=value] pairs, [Extra] by its
    [String()]. *)
Record Stats := {
  Connected : bool;
  Error : option GoError.error;
  Duration : Z;
  DNSDuration : Z;
  Address : string;
  Meta : list (string * string);
  Extra : option string
}.

(** The result of a probe that was aborted by the cancellation of its
    context after [d] nanoseconds. *)
Definition cancelled (d : Z) : Stats := {|
  Connected := false;
  Error := Some GoError.Canceled;
  Duration := d;
  DNSDuration := 0;
  Address := "";
  Meta := [];
  Extra := None
|}.

(** The result of a probe that connected after [d] nanoseconds. *)
Definition connected (d : Z) : Stats := {|
  Connected := true;
  Error := None;
  Duration := d;
  DNSDuration := 0;
  Address := "";
  Meta := [];
  Extra := None
|}.

(** What [printPingResult] writes for one probe: the status word, the
    classified reason of a failure, whether the line is wrapped in the red
    colour codes, and the probe the line reports. The timestamp and the
    layout of the numbers are left out. *)
Record Line := {
  status : string;
  reason : option string;
  coloured : bool;
  shown : Stats
}.

(** What [Summarize] prints, durations in nanoseconds. *)
Record Summary := {
  probes : Z;
  successful : Z;
  failed : Z;
  Minimum : Z;
  Maximum : Z;
  Average : Z;
  p50 : Z;
  p95 : Z;
  p99 : Z
}.

Section WithPlatform.

Variable pf : GoError.Platform.
Variable A : Float.Arith.

Local Abbreviation F := (Float.F A).

(** [type Pinger struct]. [stopOnce] is the done flag of the [sync.Once],
    [stopC] tells whether the channel is closed, [out] holds the lines
    written so far and [isTerminal] what [isTerminal(p.out)] answers. The
    probe capability [ping] and the [url] are inputs of the run and of the
    printed text only. *)
Record Pinger := {
  stopOnce : bool;
  stopC : bool;
  out : list Line;
  isTerminal : bool;
  interval : Z;
  counter : Z;
  durations : list F;
  failedTotal : Z
}.

(** [func NewPinger(out, url, ping, interval, counter) *Pinger] *)
Definition NewPinger (terminal : bool) (interval counter : Z) : Pinger := {|
  stopOnce := false;
  stopC := false;
  out := [];
  isTerminal := terminal;
  interval := interval;
  counter := counter;
  durations := [];
  failedTotal := 0
|}.

(** [func (p *Pinger) Stop()]: [stopOnce.Do] runs [close(p.stopC)] on the
    first call only; closing a closed channel would panic ([None]). *)
Definition Stop (p : Pinger) : option Pinger :=
  if stopOnce p then Some p
  else if stopC p then None
  else Some {|
    stopOnce := true;
    stopC := true;
    out := out p;
    isTerminal := isTerminal p;
    interval := interval p;
    counter := counter p;
    durations := durations p;
    failedTotal := failedTotal p
  |}.

(** [n] calls of [Stop], one after the other. *)
Fixpoint StopN (n : nat) (p : Pinger) : option Pinger :=
  match n with
  | O => Some p
  | S n' =>
      match Stop p with
      | Some p' => StopN n' p'
      | None => None
      end
  end.

(** [func (p *Pinger) Done() <-chan struct{}]: a receive is ready exactly
    when the channel is closed. *)
Definition Done (p : Pinger) : bool := stopC p.

(** [func (p *Pinger) formatError(err error) string] *)
Fixpoint formatError (err : GoError.error) : string :=
  match err with
  | GoError.UrlError _ _ inner =>
      if match GoError.Timeout pf err with Some t => t | None => false end
      then "timeout"
      else formatError inner
  | _ =>
      if GoError.isNetError err then
        if match GoError.Timeout pf err with Some t => t | None => false end
        then "timeout"
        else
          match err with
          | GoError.OpError _ _ _ _ (GoError.SyscallError _ e) =>
              GoError.Error pf e
          | _ => GoError.Error pf err
          end
      else if GoError.Is err GoError.TargetDeadlineExceeded then "timeout"
      else GoError.Error pf err
  end.

(** [func (p *Pinger) getTotal() int] *)
Definition getTotal (p : Pinger) : Z := Z.of_nat (List.length (durations p)).

(** [func (p *Pinger) getFailedTotal() int] *)
Definition getFailedTotal (p : Pinger) : Z := failedTotal p.

(** [func (p *Pinger) getSuccessTotal() int] *)
Definition getSuccessTotal (p : Pinger) : Z :=
  Int64.sub (getTotal p) (getFailedTotal p).

Definition appendDuration (p : Pinger) (d : F) : Pinger := {|
  stopOnce := stopOnce p;
  stopC := stopC p;
  out := out p;
  isTerminal := isTerminal p;
  interval := interval p;
  counter := counter p;
  durations := durations p ++ [d];
  failedTotal := failedTotal p
|}.

Definition incFailedTotal (p : Pinger) : Pinger := {|
  stopOnce := stopOnce p;
  stopC := stopC p;
  out := out p;
  isTerminal := isTerminal p;
  interval := interval p;
  counter := counter p;
  durations := durations p;
  failedTotal := Int64.add (failedTotal p) 1
|}.

(** [func (p *Pinger) logStats(stats *Stats)]: the counter is incremented
    before the test for [context.Canceled], whose branch only returns. *)
Definition logStats (p : Pinger) (stats : Stats) : Pinger :=
  let p := appendDuration p (Float.ofInt64 A (Duration stats)) in
  match Error stats with
  | Some err =>
      let p := incFailedTotal p in
      if GoError.Is err GoError.TargetCanceled then
        (* ignore cancel *)
        p
      else p
  | None => p
  end.

Definition write (p : Pinger) (l : Line) : Pinger := {|
  stopOnce := stopOnce p;
  stopC := stopC p;
  out := out p ++ [l];
  isTerminal := isTerminal p;
  interval := interval p;
  counter := counter p;
  durations := durations p;
  failedTotal := failedTotal p
|}.

(** [func (p *Pinger) printPingResult(stats *Stats)] *)
Definition printPingResult (p : Pinger) (stats : Stats) : Pinger :=
  let status := if Connected stats then "connected" else "Failed" in
  match Error stats with
  | Some err =>
      write p {| status := status; reason := Some (formatError err);
                 coloured := isTerminal p; shown := stats |}
  | None =>
      write p {| status := status; reason := None;
                 coloured := false; shown := stats |}
  end.

(** The states a pinger goes through: [NewPinger], then any of the methods
    that change it. *)
Inductive reachable : Pinger -> Prop :=
| reach_new terminal interval counter :
    reachable (NewPinger terminal interval counter)
| reach_logStats p stats :
    reachable p -> reachable (logStats p stats)
| reach_print p stats :
    reachable p -> reachable (printPingResult p stats)
| reach_Stop p p' :
    reachable p -> Stop p = Some p' -> reachable p'.

(** *** The loop of [Pinger.Ping]

    One iteration of [for !stop { select { ... } }] receives either from the
    timer, and then runs one probe, or from [p.Done()]. Which of the two is
    taken, and what the probe returns, is the input of the run; a call of
    [Stop] from another goroutine may come between two iterations. *)
Inductive event : Type :=
| Timer (stats : Stats)
| DoneC
| ExternalStop.

(** The pinger with the two local variables of [Ping]. *)
Record loop := {
  pinger : Pinger;
  stop : bool;
  hasDiscardedFirst : bool
}.

(** [case <-timer.C:] with [stats := p.ping.Ping(ctx)] *)
Definition onTimer (l : loop) (stats : Stats) : loop :=
  if negb (hasDiscardedFirst l) then
    {| pinger := printPingResult (pinger l) stats;
       stop := stop l;
       hasDiscardedFirst := true |}
  else
    let p := logStats (pinger l) stats in
    let stop' :=
      if (counter p >? 0) && (getTotal p >? Int64.sub (counter p) 1)
      then true else stop l in
    {| pinger := printPingResult p stats;
       stop := stop';
       hasDiscardedFirst := hasDiscardedFirst l |}.

(** One event; [None] when the event cannot happen ([DoneC] on an open
    channel) or panics. *)
Definition step (l : loop) (e : event) : option loop :=
  match e with
  | Timer stats => Some (onTimer l stats)
  | DoneC =>
      if Done (pinger l) then
        Some {| pinger := pinger l; stop := true;
                hasDiscardedFirst := hasDiscardedFirst l |}
      else None
  | ExternalStop =>
      match Stop (pinger l) with
      | Some p => Some {| pinger := p; stop := stop l;
                          hasDiscardedFirst := hasDiscardedFirst l |}
      | None => None
      end
  end.

(** The loop over the events, leaving it as soon as [stop] is set; the
    result holds the events that were not consumed. *)
Fixpoint run (l : loop) (es : list event) : option (loop * list event) :=
  match es with
  | [] => Some (l, [])
  | e :: es' =>
      if stop l then Some (l, es)
      else match step l e with
           | Some l' => run l' es'
           | None => None
           end
  end.

Definition start (p : Pinger) : loop :=
  {| pinger := p; stop := false; hasDiscardedFirst := false |}.

(** [func (p *Pinger) Ping()]: the loop from its initial state and, once it
    is left, the deferred [p.Stop()]. [None] also when the events end while
    the loop is still waiting. *)
Definition Ping (p : Pinger) (es : list event) : option Pinger :=
  match run (start p) es with
  | Some (l, _) => if stop l then Stop (pinger l) else None
  | None => None
  end.

(** *** The report *)

(** [func (p *Pinger) getMinDuration() time.Duration] *)
Definition getMinDuration (p : Pinger) : option Z :=
  option_map (Float.toInt64 A)
    (Stat.Quantile A (Float.ofInt64 A 0) Stat.Empirical (durations p)).

(** [func (p *Pinger) getMaxDuration() time.Duration] *)
Definition getMaxDuration (p : Pinger) : option Z :=
  option_map (Float.toInt64 A)
    (Stat.Quantile A (Float.ofInt64 A 1) Stat.Empirical (durations p)).

(** [func (p *Pinger) getAvgDuration() time.Duration] *)
Definition getAvgDuration (p : Pinger) : Z :=
  Float.toInt64 A (Stat.Mean A (durations p)).

(** [time.Duration(stat.Quantile(q, stat.LinInterp, p.durations, nil))] *)
Definition getQuantile (p : Pinger) (num den : Z) : option Z :=
  option_map (Float.toInt64 A)
    (Stat.Quantile A (Float.ofDecimal A num den) Stat.LinInterp (durations p)).

Definition sortDurations (p : Pinger) : Pinger := {|
  stopOnce := stopOnce p;
  stopC := stopC p;
  out := out p;
  isTerminal := isTerminal p;
  interval := interval p;
  counter := counter p;
  durations := Stat.Sort A (durations p);
  failedTotal := failedTotal p
|}.

(** [func (p *Pinger) Summarize()]: the durations are sorted in place, then
    the arguments of [Fprintf] are evaluated from left to right; the result
    is the pinger after the call and the numbers printed, [None] when one of
    the calls panics. *)
Definition Summarize (p : Pinger) : option (Pinger * Summary) :=
  let p := sortDurations p in
  let pTotal := getTotal p in
  let average := if negb (pTotal =? 0)%Z then getAvgDuration p else 0%Z in
  match getMinDuration p with
  | None => None
  | Some mn =>
  match getMaxDuration p with
  | None => None
  | Some mx =>
  match getQuantile p 5 10 with
  | None => None
  | Some q50 =>
  match getQuantile p 95 100 with
  | None => None
  | Some q95 =>
  match getQuantile p 99 100 with
  | None => None
  | Some q99 =>
      Some (p, {| probes := getTotal p;
                  successful := getSuccessTotal p;
                  failed := getFailedTotal p;
                  Minimum := mn;
                  Maximum := mx;
                  Average := average;
                  p50 := q50;
                  p95 := q95;
                  p99 := q99 |})
  end end end end end.

End WithPlatform.

Arguments stopOnce {A} _.
Arguments stopC {A} _.
Arguments out {A} _.
Arguments isTerminal {A} _.
Arguments interval {A} _.
Arguments counter {A} _.
Arguments durations {A} _.
Arguments failedTotal {A} _.
Arguments Stop {A} p.
Arguments StopN {A} n p.
Arguments Done {A} p.
Arguments getTotal {A} p.
Arguments getFailedTotal {A} p.
Arguments getSuccessTotal {A} p.
Arguments logStats {A} p stats.
Arguments printPingResult pf {A} p stats.
Arguments pinger {A} _.
Arguments stop {A} _.
Arguments hasDiscardedFirst {A} _.
Arguments onTimer pf {A} l stats.
Arguments step pf {A} l e.
Arguments run pf {A} l es.
Arguments start {A} p.
Arguments Ping pf {A} p es.
Arguments getMinDuration {A} p.
Arguments getMaxDuration {A} p.
Arguments getAvgDuration {A} p.
Arguments getQuantile {A} p num den.
Arguments sortDurations {A} p.
Arguments Summarize {A} p.
Arguments reachable pf {A} _.

End Ping.

(** ** The legacy [Result] record *)

Module Result.

(** [type Result struct]; [Target] plays no part in the arithmetic and is
    left out. *)
Record Result := {
  Counter : Z;
  SuccessCounter : Z;
  MinDuration : Z;
  MaxDuration : Z;
  TotalDuration : Z
}.

(** [func (result Result) Avg() time.Duration]; [None] is a run-time panic. *)
Definition Avg (result : Result) : option Z :=
  if SuccessCounter result =? 0 then Some 0
  else Int64.div (TotalDuration result) (SuccessCounter result).

(** [func (result Result) Failed() int] *)
Definition Failed (result : Result) : Z :=
  Int64.sub (Counter result) (SuccessCounter result).

End Result.

(** ** The protocol registry ([pinger], [Register], [Load]) *)

Module Registry.

Section WithFactory.

(** The non-nil values of [type Factory func(url *url.URL, op *Option)
    (Ping, error)]; [None] below is the nil function. *)
Variable Factory : Type.

(** [map[Protocol]Factory]: the entries of the map, one per key. *)
Definition registry : Type := list (Protocol.Protocol * option Factory).

(** [var pinger = map[Protocol]Factory{}] *)
Definition pinger : registry := [].

(** [m[k] = v]: the entry of [k] is replaced, or added. *)
Definition assign (m : registry) (k : Protocol.Protocol) (v : option Factory)
  : registry :=
  (k, v) :: filter (fun kv => negb (fst kv =? k)) m.

(** [m[k]]: the value of the entry of [k], the zero value (nil) without
    one. *)
Definition index (m : registry) (k : Protocol.Protocol) : option Factory :=
  match find (fun kv => fst kv =? k) m with
  | Some kv => snd kv
  | None => None
  end.

(** [func Register(protocol Protocol, factory Factory)], on the map. *)
Definition Register (m : registry) (protocol : Protocol.Protocol)
           (factory : option Factory) : registry :=
  assign m protocol factory.

(** [func Load(protocol Protocol) Factory] *)
Definition Load (m : registry) (protocol : Protocol.Protocol) : option Factory :=
  index m protocol.

(** A sequence of calls of [Register], the first call first. *)
Definition RegisterAll (m : registry)
           (calls : list (Protocol.Protocol * option Factory)) : registry :=
  fold_left (fun m call => Register m (fst call) (snd call)) calls m.

End WithFactory.

End Registry.

(** ** The metadata of a probe ([Stats.FormatMeta]) *)

Module Meta.

Local Open Scope string_scope.

(** [map[string]fmt.Stringer]: the entries in the order [range] yields them,
    which Go leaves unspecified; a value by its [String()]. *)
Definition meta : Type := list (string * string).

(** [s.Meta[key]]; [None] for a missing key, whose nil [Stringer] would make
    [String()] panic. *)
Definition lookup (m : meta) (key : string) : option string :=
  match find (fun kv => String.eqb (fst kv) key) m with
  | Some kv => Some (snd kv)
  | None => None
  end.

(** [sort.Strings]: ascending in the byte-wise order of [<] on strings. *)
Fixpoint insertString (a : string) (l : list string) : list string :=
  match l with
  | [] => [a]
  | b :: r => if String.ltb a b then a :: l else b :: insertString a r
  end.

Definition sortStrings (l : list string) : list string :=
  fold_right insertString [] l.

(** The loop [for i, key := range keys] from index [i] on, with the text
    written so far; [n] is [len(keys)]. *)
Fixpoint writeKeys (m : meta) (n : Z) (i : Z) (keys : list string)
         (builder : string) : option string :=
  match keys with
  | [] => Some builder
  | key :: rest =>
      match lookup m key with
      | None => None
      | Some value =>
          let builder := builder ++ key ++ "=" ++ value in
          let builder := if (i <? n - 1)%Z then builder ++ " " else builder in
          writeKeys m n (i + 1)%Z rest builder
      end
  end.

(** [func (s *Stats) FormatMeta() string], on the entries of [s.Meta]. *)
Definition FormatMeta (m : meta) : option string :=
  let keys := sortStrings (map fst m) in
  writeKeys m (Z.of_nat (List.length keys)) 0%Z keys "".


(** The text of one entry. *)
Definition pair (kv : string * string) : string := fst kv ++ "=" ++ snd kv.


(** [a] does not come after [b] in the order of [<] on strings. *)
Definition notAfter (a b : string) : Prop := String.ltb b a = false.

End Meta.

(** ** The events of a run *)

Module Trace.

(** The probe results of the timer events of a trace, in order. *)
Fixpoint timers (es : list Ping.event) : list Ping.Stats :=
  match es with
  | [] => []
  | Ping.Timer stats :: es' => stats :: timers es'
  | _ :: es' => timers es'
  end.

(** Whether a probe result carries an error. *)
Definition hasError (stats : Ping.Stats) : bool :=
  match Ping.Error stats with
  | Some _ => true
  | None => false
  end.

(** The number of results that carry an error. *)
Definition countErrors (hist : list Ping.Stats) : Z :=
  Z.of_nat (List.length (filter hasError hist)).

Section WithArith.

Variable A : Float.Arith.

(** What a state of the loop holds of the probes [hist] made so far: a line
    for each, a duration for each but the first. *)
Definition records (l : Ping.loop A) (hist : list Ping.Stats) : Prop :=
  map Ping.shown (Ping.out (Ping.pinger l)) = hist /\
  Ping.durations (Ping.pinger l)
  = map (fun stats => Float.ofInt64 A (Ping.Duration stats)) (tl hist) /\
  Ping.hasDiscardedFirst l = negb (Nat.eqb (List.length hist) 0).

(** The failure counter of a state of the loop after the probes [hist]. *)
Definition counts (l : Ping.loop A) (hist : list Ping.Stats) : Prop :=
  Ping.getFailedTotal (Ping.pinger l) = countErrors (tl hist) /\
  Ping.hasDiscardedFirst l = negb (Nat.eqb (List.length hist) 0).

(** A state of the loop that respects the counter [c]. *)
Definition within (c : Z) (l : Ping.loop A) : Prop :=
  Ping.counter (Ping.pinger l) = c /\
  Ping.getTotal (Ping.pinger l) <= c /\
  (Ping.stop l = false -> Ping.getTotal (Ping.pinger l) < c).

End WithArith.

Arguments records {A} l hist.
Arguments counts {A} l hist.
Arguments within {A} c l.

End Trace.

(** * Properties *)

(** ** 64-bit integers *)

Lemma Int64_wrap_id (z : Z) : Int64.in_range z -> Int64.wrap z = z.
Proof.
  unfold Int64.in_range, Int64.wrap, Int64.modulus, Int64.min_int, Int64.max_int.
  intros H. rewrite Z.mod_small; lia.
Qed.

Lemma Int64_wrap_in_range (z : Z) : Int64.in_range (Int64.wrap z).
Proof.
  unfold Int64.in_range, Int64.wrap, Int64.modulus, Int64.min_int, Int64.max_int.
  pose proof (Z.mod_pos_bound (z + 2 ^ 63) (2 ^ 64) ltac:(lia)). lia.
Qed.

(** ** Protocol parsing *)

Section ProtocolFacts.

Import Protocol.

Variable mapLower : string -> string.

Lemma ToLower_ASCII (s : string) :
  isASCII s = true -> ToLower mapLower s = lowerASCII s.
Proof.
  intros H. unfold ToLower. rewrite H.
  destruct (hasUpper s) eqn:U; [reflexivity|].
  clear H. induction s as [|c r IH]; [reflexivity|].
  simpl in U. apply orb_false_iff in U as [Uc Ur].
  simpl. unfold lowerByte. rewrite Uc. f_equal. exact (IH Ur).
Qed.

Lemma NewProtocol_cases (s : string) :
  (ToLower mapLower s = "tcp"%string /\ NewProtocol mapLower s = (TCP, None)) \/
  (ToLower mapLower s = "http"%string /\ NewProtocol mapLower s = (HTTP, None)) \/
  (ToLower mapLower s = "https"%string /\ NewProtocol mapLower s = (HTTPS, None)) \/
  (ToLower mapLower s <> "tcp"%string /\ ToLower mapLower s <> "http"%string /\
   ToLower mapLower s <> "https"%string /\
   NewProtocol mapLower s = (0, Some (Errorf_not_support s))).
Proof.
  unfold NewProtocol. cbv zeta.
  change (String TCP) with "tcp"%string.
  change (String HTTP) with "http"%string.
  change (String HTTPS) with "https"%string.
  destruct (String.eqb_spec (ToLower mapLower s) "tcp") as [E1|N1];
    [left; split; [exact E1|reflexivity]|].
  destruct (String.eqb_spec (ToLower mapLower s) "http") as [E2|N2];
    [right; left; split; [exact E2|reflexivity]|].
  destruct (String.eqb_spec (ToLower mapLower s) "https") as [E3|N3];
    [right; right; left; split; [exact E3|reflexivity]|].
  right; right; right. repeat split; assumption.
Qed.

(** C7. Parsing a protocol is case-insensitive and total: [NewProtocol s]
    returns [(p, nil)] exactly when the lowered text of [s] is the canonical
    form of [p], for [p] one of TCP, HTTP and HTTPS (on an ASCII string the
    lowered text is the string with its upper-case letters lowered); the
    canonical form of each of the three parses back to it; and every other
    string yields the zero protocol with the error
    [protocol <s> not support]. *)
Theorem NewProtocol_case_insensitive_total (s : string) :
  (forall p, In p [TCP; HTTP; HTTPS] ->
     (NewProtocol mapLower s = (p, None) <->
      ToLower mapLower s = Protocol.String p)) /\
  (isASCII s = true -> ToLower mapLower s = lowerASCII s) /\
  (forall p, In p [TCP; HTTP; HTTPS] ->
     NewProtocol mapLower (Protocol.String p) = (p, None)) /\
  ((forall p, In p [TCP; HTTP; HTTPS] ->
      ToLower mapLower s <> Protocol.String p) ->
   NewProtocol mapLower s = (0, Some (Errorf_not_support s))) /\
  (snd (NewProtocol mapLower s) = None \/
   NewProtocol mapLower s = (0, Some (Errorf_not_support s))).
Proof.
  pose proof (NewProtocol_cases s) as C.
  split; [|split; [|split; [|split]]].
  - intros p Hp; split; intros H.
    + destruct Hp as [<-|[<-|[<-|[]]]];
        destruct C as [[E R]|[[E R]|[[E R]|(N1 & N2 & N3 & R)]]];
        rewrite R in H; try discriminate; exact E.
    + destruct Hp as [<-|[<-|[<-|[]]]];
        change (Protocol.String TCP) with "tcp"%string in H;
        change (Protocol.String HTTP) with "http"%string in H;
        change (Protocol.String HTTPS) with "https"%string in H;
        destruct C as [[E R]|[[E R]|[[E R]|(N1 & N2 & N3 & R)]]];
        rewrite H in *; try discriminate; try contradiction; exact R.
  - apply ToLower_ASCII.
  - intros p [<-|[<-|[<-|[]]]]; reflexivity.
  - intros H.
    destruct C as [[E R]|[[E R]|[[E R]|(N1 & N2 & N3 & R)]]]; [| | |exact R].
    + exfalso. apply (H TCP); [simpl; auto|exact E].
    + exfalso. apply (H HTTP); [simpl; auto|exact E].
    + exfalso. apply (H HTTPS); [simpl; auto|exact E].
  - destruct C as [[E R]|[[E R]|[[E R]|(N1 & N2 & N3 & R)]]];
      rewrite R; simpl; auto.
Qed.

End ProtocolFacts.

Example NewProtocol_upper_case :
  Protocol.NewProtocol (fun s => s) "HTTPS" = (Protocol.HTTPS, None) /\
  Protocol.NewProtocol (fun s => s) "Tcp" = (Protocol.TCP, None) /\
  Protocol.NewProtocol (fun s => s) "udp"
  = (0, Some "protocol udp not support"%string).
Proof. repeat split; reflexivity. Qed.

(** ** The legacy result *)

(** C10. [Result.Avg] never divides by zero: it always returns; with a
    [SuccessCounter] of zero the result is the zero duration, otherwise it
    is [TotalDuration / SuccessCounter], Go's truncated 64-bit quotient
    (which is the mathematical truncated quotient except for the smallest
    duration divided by -1, where it wraps). *)
Theorem Avg_never_divides_by_zero (r : Result.Result) :
  Result.Avg r <> None /\
  (Result.SuccessCounter r = 0 -> Result.Avg r = Some 0) /\
  (Result.SuccessCounter r <> 0 ->
   Result.Avg r =
   Some (Int64.wrap (Z.quot (Result.TotalDuration r) (Result.SuccessCounter r)))) /\
  (Result.SuccessCounter r <> 0 ->
   Int64.in_range (Result.TotalDuration r) ->
   ~ (Result.TotalDuration r = Int64.min_int /\ Result.SuccessCounter r = -1) ->
   Result.Avg r =
   Some (Z.quot (Result.TotalDuration r) (Result.SuccessCounter r))).
Proof.
  unfold Result.Avg, Int64.div.
  destruct (Z.eqb_spec (Result.SuccessCounter r) 0) as [E|N].
  - repeat split; try discriminate; intros; try contradiction; reflexivity.
  - repeat split; try discriminate; intros; try contradiction; try reflexivity.
    f_equal. apply Int64_wrap_id.
    set (a := Result.TotalDuration r) in *.
    set (b := Result.SuccessCounter r) in *.
    clearbody a b.
    unfold Int64.in_range, Int64.min_int, Int64.max_int in *.
    assert (Habs : Z.abs (Z.quot a b) = Z.abs a / Z.abs b).
    { rewrite <- Z.quot_abs by assumption. apply Z.quot_div_nonneg; lia. }
    pose proof (Z.mul_div_le (Z.abs a) (Z.abs b) ltac:(lia)) as Hm.
    pose proof (Z.div_pos (Z.abs a) (Z.abs b) ltac:(lia) ltac:(lia)) as Hp.
    destruct (Z.eq_dec b (-1)) as [Hb|Hb].
    + rewrite Hb in *.
      pose proof (Z.quot_opp_r a 1 ltac:(lia)) as Ho.
      rewrite Z.quot_1_r in Ho. change (- (1)) with (-1) in Ho.
      rewrite Ho. lia.
    + destruct (Z.eq_dec b 1) as [Hb1|Hb1].
      * rewrite Hb1. rewrite Z.quot_1_r. lia.
      * assert (2 <= Z.abs b) by lia. nia.
Qed.

(** ** The stop channel and the counters *)

Section PingerFacts.

Variable pf : GoError.Platform.
Variable A : Float.Arith.

Lemma Stop_closes (p p' : Ping.Pinger A) :
  Ping.Stop p = Some p' ->
  Ping.stopOnce p' = true /\
  (Ping.stopOnce p = false -> Ping.stopC p' = true) /\
  Ping.durations p' = Ping.durations p /\
  Ping.failedTotal p' = Ping.failedTotal p /\
  Ping.counter p' = Ping.counter p /\
  Ping.out p' = Ping.out p.
Proof.
  unfold Ping.Stop. destruct (Ping.stopOnce p) eqn:O.
  - intros [= <-]. rewrite O. repeat split; congruence.
  - destruct (Ping.stopC p); [discriminate|].
    intros [= <-]. simpl. repeat split.
Qed.

Lemma StopN_done (n : nat) (p : Ping.Pinger A) :
  Ping.stopOnce p = true -> Ping.StopN n p = Some p.
Proof.
  intros O. induction n as [|n IH]; [reflexivity|].
  simpl. unfold Ping.Stop. rewrite O. exact IH.
Qed.

Lemma reachable_once_iff_closed (p : Ping.Pinger A) :
  Ping.reachable pf p -> Ping.stopOnce p = Ping.stopC p.
Proof.
  induction 1 as [t i c|p stats _ IH|p stats _ IH|p p' _ IH E].
  - reflexivity.
  - unfold Ping.logStats. destruct (Ping.Error stats) as [err|]; simpl;
      [destruct (GoError.Is err GoError.TargetCanceled)|]; exact IH.
  - unfold Ping.printPingResult.
    destruct (Ping.Error stats); exact IH.
  - unfold Ping.Stop in E. destruct (Ping.stopOnce p) eqn:O.
    + injection E as <-. congruence.
    + destruct (Ping.stopC p); [discriminate|]. injection E as <-.
      reflexivity.
Qed.

(** C8. [Stop] is idempotent. In every state of a pinger ([NewPinger]
    followed by any calls of its methods) the first call of [Stop] does not
    panic and leaves the channel closed, a further call returns the state
    unchanged, and [n] calls in a row, for any [n >= 1], end in the state
    one call ends in. *)
Theorem Stop_idempotent (p : Ping.Pinger A) (n : nat) :
  Ping.reachable pf p ->
  (1 <= n)%nat ->
  exists p',
    Ping.Stop p = Some p' /\
    Ping.stopC p' = true /\
    Ping.Stop p' = Some p' /\
    Ping.StopN n p = Ping.Stop p.
Proof.
  intros R Hn.
  pose proof (reachable_once_iff_closed p R) as Inv.
  destruct n as [|n]; [lia|].
  assert (E : exists p', Ping.Stop p = Some p' /\ Ping.stopC p' = true
                         /\ Ping.stopOnce p' = true).
  { unfold Ping.Stop. destruct (Ping.stopOnce p) eqn:O.
    - exists p. repeat split; congruence.
    - rewrite <- Inv. eexists; repeat split. }
  destruct E as (p' & E & C & O).
  exists p'. repeat split; try assumption.
  - unfold Ping.Stop. rewrite O. reflexivity.
  - simpl. rewrite E. apply StopN_done. exact O.
Qed.

Lemma failedTotal_logStats (p : Ping.Pinger A) (stats : Ping.Stats) :
  Ping.getFailedTotal (Ping.logStats p stats) =
  match Ping.Error stats with
  | Some _ => Int64.add (Ping.getFailedTotal p) 1
  | None => Ping.getFailedTotal p
  end.
Proof.
  unfold Ping.logStats. destruct (Ping.Error stats) as [err|]; simpl;
    [destruct (GoError.Is err GoError.TargetCanceled)|]; reflexivity.
Qed.

Lemma durations_logStats (p : Ping.Pinger A) (stats : Ping.Stats) :
  Ping.durations (Ping.logStats p stats) =
  Ping.durations p ++ [Float.ofInt64 A (Ping.Duration stats)].
Proof.
  unfold Ping.logStats. destruct (Ping.Error stats) as [err|]; simpl;
    [destruct (GoError.Is err GoError.TargetCanceled)|]; reflexivity.
Qed.

Lemma getTotal_logStats (p : Ping.Pinger A) (stats : Ping.Stats) :
  Ping.getTotal (Ping.logStats p stats) = Ping.getTotal p + 1.
Proof.
  unfold Ping.getTotal. rewrite durations_logStats, length_app. simpl. lia.
Qed.

(** C1, as the code has it: [logStats] increments the failure counter for
    every probe that carries an error, and so also for a probe whose only
    failure is the cancellation of its context, which [errors.Is] recognises
    one line too late. *)
Theorem logStats_counts_cancellation (p : Ping.Pinger A) (d : Z) :
  GoError.Is GoError.Canceled GoError.TargetCanceled = true /\
  Ping.getFailedTotal (Ping.logStats p (Ping.cancelled d))
  = Int64.add (Ping.getFailedTotal p) 1 /\
  Ping.getFailedTotal
    (Ping.logStats (Ping.NewPinger A false 0 0) (Ping.cancelled d)) = 1.
Proof.
  split; [reflexivity|]. split; rewrite failedTotal_logStats; reflexivity.
Qed.

(** The failure counter never exceeds the number of samples, as long as that
    number fits an [int]. *)
Lemma reachable_failedTotal_bounds (p : Ping.Pinger A) :
  Ping.reachable pf p ->
  Ping.getTotal p <= Int64.max_int ->
  0 <= Ping.getFailedTotal p <= Ping.getTotal p.
Proof.
  induction 1 as [t i c|p stats _ IH|p stats _ IH|p p' _ IH E]; intros B.
  - unfold Ping.getTotal, Ping.getFailedTotal. simpl. lia.
  - rewrite failedTotal_logStats. rewrite getTotal_logStats in *.
    assert (P : 0 <= Ping.getTotal p)
      by (unfold Ping.getTotal; lia).
    specialize (IH ltac:(lia)).
    destruct (Ping.Error stats); [|lia].
    unfold Int64.add. rewrite Int64_wrap_id; [lia|].
    unfold Int64.in_range, Int64.min_int, Int64.max_int in *. lia.
  - unfold Ping.printPingResult in *.
    destruct (Ping.Error stats); exact (IH B).
  - apply Stop_closes in E as (_ & _ & D & Fl & _).
    unfold Ping.getTotal, Ping.getFailedTotal in *.
    rewrite D, Fl in *. exact (IH B).
Qed.

(** C9. In every state of a pinger ([NewPinger] followed by any calls of
    [logStats], [printPingResult] and [Stop]) whose number of samples fits
    an [int], as the length of a Go slice does, the total equals the
    successes plus the failures, and both are non-negative. *)
Theorem total_is_successes_plus_failures (p : Ping.Pinger A) :
  Ping.reachable pf p ->
  Ping.getTotal p <= Int64.max_int ->
  Ping.getTotal p = Ping.getSuccessTotal p + Ping.getFailedTotal p /\
  0 <= Ping.getSuccessTotal p /\ 0 <= Ping.getFailedTotal p.
Proof.
  intros R B.
  pose proof (reachable_failedTotal_bounds p R B) as [L U].
  unfold Ping.getSuccessTotal, Int64.sub.
  rewrite Int64_wrap_id; [lia|].
  unfold Int64.in_range, Int64.min_int, Int64.max_int in *. lia.
Qed.

End PingerFacts.

Lemma Stop_idempotent_witness :
  exists p',
    Ping.Stop (Ping.NewPinger Float.float64 false 0 3) = Some p' /\
    Ping.stopC p' = true /\
    Ping.Stop p' = Some p' /\
    Ping.StopN 4 (Ping.NewPinger Float.float64 false 0 3)
    = Ping.Stop (Ping.NewPinger Float.float64 false 0 3).
Proof.
  apply (Stop_idempotent GoError.linux Float.float64
           (Ping.NewPinger Float.float64 false 0 3) 4).
  - apply Ping.reach_new.
  - lia.
Defined.

Lemma total_is_successes_plus_failures_witness :
  let p := Ping.logStats
             (Ping.logStats (Ping.NewPinger Float.float64 false 0 0)
                (Ping.connected 10000000))
             (Ping.cancelled 5000000) in
  Ping.getTotal p = Ping.getSuccessTotal p + Ping.getFailedTotal p /\
  0 <= Ping.getSuccessTotal p /\ 0 <= Ping.getFailedTotal p.
Proof.
  apply (total_is_successes_plus_failures GoError.linux Float.float64).
  - apply Ping.reach_logStats, Ping.reach_logStats, Ping.reach_new.
  - vm_compute. discriminate.
Defined.

(** ** The scheduling loop *)

Section LoopFacts.

Variable pf : GoError.Platform.
Variable A : Float.Arith.

Local Abbreviation sample :=
  (fun stats : Ping.Stats => Float.ofInt64 A (Ping.Duration stats)).

Lemma counter_logStats (p : Ping.Pinger A) (stats : Ping.Stats) :
  Ping.counter (Ping.logStats p stats) = Ping.counter p.
Proof.
  unfold Ping.logStats. destruct (Ping.Error stats) as [err|]; simpl;
    [destruct (GoError.Is err GoError.TargetCanceled)|]; reflexivity.
Qed.

Lemma out_logStats (p : Ping.Pinger A) (stats : Ping.Stats) :
  Ping.out (Ping.logStats p stats) = Ping.out p.
Proof.
  unfold Ping.logStats. destruct (Ping.Error stats) as [err|]; simpl;
    [destruct (GoError.Is err GoError.TargetCanceled)|]; reflexivity.
Qed.

Lemma printPingResult_fields (p : Ping.Pinger A) (stats : Ping.Stats) :
  let p' := Ping.printPingResult pf p stats in
  Ping.counter p' = Ping.counter p /\
  Ping.durations p' = Ping.durations p /\
  Ping.failedTotal p' = Ping.failedTotal p /\
  map Ping.shown (Ping.out p') = map Ping.shown (Ping.out p) ++ [stats].
Proof.
  unfold Ping.printPingResult.
  destruct (Ping.Error stats); simpl; rewrite map_app; repeat split.
Qed.

(** One tick after the warm-up: the sample is logged and printed, and the
    loop stops when the counter is positive and reached. *)
Lemma onTimer_counted (l : Ping.loop A) (stats : Ping.Stats) :
  Ping.hasDiscardedFirst l = true ->
  let l' := Ping.onTimer pf l stats in
  Ping.hasDiscardedFirst l' = true /\
  Ping.counter (Ping.pinger l') = Ping.counter (Ping.pinger l) /\
  Ping.durations (Ping.pinger l') = Ping.durations (Ping.pinger l) ++ [sample stats] /\
  map Ping.shown (Ping.out (Ping.pinger l'))
  = map Ping.shown (Ping.out (Ping.pinger l)) ++ [stats] /\
  Ping.stop l' =
  (if (Ping.counter (Ping.pinger l) >? 0) &&
      (Ping.getTotal (Ping.pinger l) + 1 >?
       Int64.sub (Ping.counter (Ping.pinger l)) 1)
   then true else Ping.stop l).
Proof.
  intros H. unfold Ping.onTimer. rewrite H. cbn [negb]. cbv zeta.
  cbn [Ping.pinger Ping.stop Ping.hasDiscardedFirst].
  pose proof (printPingResult_fields (Ping.logStats (Ping.pinger l) stats) stats)
    as (C & D & _ & O).
  rewrite C, D, O, counter_logStats, out_logStats, durations_logStats,
    getTotal_logStats.
  repeat split.
Qed.

(** The ticks after the warm-up, as long as the counter is not passed. *)
Lemma run_counted (ps : list Ping.Stats) : forall l : Ping.loop A,
  Ping.hasDiscardedFirst l = true ->
  Ping.stop l = false ->
  let c := Ping.counter (Ping.pinger l) in
  let k := Ping.getTotal (Ping.pinger l) in
  Int64.in_range c ->
  c <= 0 \/ (k < c /\ k + Z.of_nat (List.length ps) <= c) ->
  exists l',
    Ping.run pf l (map Ping.Timer ps) = Some (l', []) /\
    Ping.hasDiscardedFirst l' = true /\
    Ping.counter (Ping.pinger l') = c /\
    Ping.durations (Ping.pinger l')
    = Ping.durations (Ping.pinger l) ++ map sample ps /\
    map Ping.shown (Ping.out (Ping.pinger l'))
    = map Ping.shown (Ping.out (Ping.pinger l)) ++ ps /\
    Ping.stop l' = ((0 <? c) && (c <=? k + Z.of_nat (List.length ps))).
Proof.
  induction ps as [|s ps IH]; intros l Hd Hs c k Hr Hc.
  - exists l. simpl. rewrite !app_nil_r. repeat split; try assumption.
    rewrite Hs. symmetry. apply andb_false_iff.
    destruct Hc as [Hc|Hc]; [left; apply Z.ltb_ge|right; apply Z.leb_gt]; lia.
  - cbn [map Ping.run]. rewrite Hs. cbn [Ping.step].
    pose proof (onTimer_counted l s Hd) as (Hd' & Hc' & Hdur & Hout & Hstop).
    fold c k in Hc', Hstop.
    set (l1 := Ping.onTimer pf l s) in *.
    assert (Hsub : 0 < c -> Int64.sub c 1 = c - 1).
    { intros P. unfold Int64.sub. apply Int64_wrap_id.
      unfold Int64.in_range, Int64.min_int, Int64.max_int in *. lia. }
    assert (Hk1 : Ping.getTotal (Ping.pinger l1) = k + 1).
    { unfold Ping.getTotal. rewrite Hdur, length_app. simpl.
      unfold k, Ping.getTotal. lia. }
    assert (Hk0 : 0 <= k) by (unfold k, Ping.getTotal; lia).
    assert (Hlen : Z.of_nat (List.length (s :: ps))
                   = Z.of_nat (List.length ps) + 1)
      by (cbn [List.length]; lia).
    rewrite Hlen in *.
    destruct (Ping.stop l1) eqn:S1.
    + (* the counter is reached with this very probe: nothing may follow *)
      assert (P : 0 < c /\ k + 1 > c - 1).
      { destruct (c >? 0) eqn:G; cbn [andb] in Hstop; [|congruence].
        apply Z.gtb_lt in G. rewrite (Hsub ltac:(lia)) in Hstop.
        destruct (k + 1 >? c - 1) eqn:G2; [|congruence].
        split; [lia|]. apply Z.gtb_lt in G2. lia. }
      destruct Hc as [Hc|[Hc1 Hc2]]; [lia|].
      assert (ps = []) as -> by (destruct ps; [reflexivity|cbn in Hc2; lia]).
      exists l1. cbn [map Ping.run List.length] in *.
      repeat split; try assumption.
      rewrite S1. symmetry. apply andb_true_iff.
      split; [apply Z.ltb_lt|apply Z.leb_le]; lia.
    + assert (Q : c <= 0 \/ k + 1 < c).
      { destruct Hc as [Hc|[Hc1 Hc2]]; [left; exact Hc|right].
        destruct (c >? 0) eqn:G; cbn [andb] in Hstop.
        - rewrite (Hsub ltac:(lia)) in Hstop.
          destruct (k + 1 >? c - 1) eqn:G2; [congruence|].
          pose proof (Zgt_cases (k + 1) (c - 1)) as Z0. rewrite G2 in Z0.
          lia.
        - pose proof (Zgt_cases c 0) as Z0. rewrite G in Z0. lia. }
      destruct (IH l1 Hd' S1) as (l' & R & Hd2 & Hc2' & Hdur2 & Hout2 & Hstop2).
      * rewrite Hc'. exact Hr.
      * rewrite Hc', Hk1. destruct Q as [Q|Q]; [left; exact Q|right].
        destruct Hc as [Hc|[Hc1 Hc2]]; lia.
      * exists l'. rewrite Hc', Hk1 in *. rewrite Hdur, Hout in *.
        rewrite <- !app_assoc in *. cbn [app map] in *.
        repeat split; try assumption.
        rewrite Hstop2. f_equal. f_equal. lia.
Qed.

Lemma run_stopped_app (es more : list Ping.event) : forall l l' : Ping.loop A,
  Ping.run pf l es = Some (l', []) ->
  Ping.stop l' = true ->
  Ping.run pf l (es ++ more) = Some (l', more).
Proof.
  induction es as [|e es IH]; intros l l' R S.
  - cbn in R. injection R as <-. cbn [app].
    destruct more as [|m more]; [reflexivity|]. cbn. rewrite S. reflexivity.
  - cbn [app Ping.run] in *. destruct (Ping.stop l); [discriminate|].
    destruct (Ping.step pf l e) as [l1|]; [|discriminate].
    apply IH; assumption.
Qed.

(** The whole run on timer ticks only: the first probe is printed and
    nothing else, the others are logged and printed. *)
Lemma run_timers (terminal : bool) (interval counter : Z)
      (s0 : Ping.Stats) (ps : list Ping.Stats) :
  Int64.in_range counter ->
  counter <= 0 \/ Z.of_nat (List.length ps) <= counter ->
  exists l,
    Ping.run pf (Ping.start (Ping.NewPinger A terminal interval counter))
      (map Ping.Timer (s0 :: ps)) = Some (l, []) /\
    Ping.durations (Ping.pinger l) = map sample ps /\
    map Ping.shown (Ping.out (Ping.pinger l)) = s0 :: ps /\
    Ping.stop l = ((0 <? counter) && (counter <=? Z.of_nat (List.length ps))).
Proof.
  intros Hr Hc.
  set (p0 := Ping.NewPinger A terminal interval counter).
  set (l0 := {| Ping.pinger := Ping.printPingResult pf p0 s0;
                Ping.stop := false; Ping.hasDiscardedFirst := true |}).
  pose proof (printPingResult_fields p0 s0) as (C & D & _ & O).
  destruct (run_counted ps l0 eq_refl eq_refl) as (l & R & _ & _ & Hd & Ho & Hs).
  - cbn [l0 Ping.pinger]. rewrite C. exact Hr.
  - cbn [l0 Ping.pinger]. rewrite C. unfold Ping.getTotal. rewrite D.
    cbn. destruct Hc as [Hc|Hc]; [left; exact Hc|].
    destruct (Z_le_gt_dec counter 0); [left; assumption|right; lia].
  - exists l. cbn [l0 Ping.pinger] in *.
    unfold Ping.getTotal in Hs. rewrite C, D in *. rewrite O in Ho.
    cbn in Hd, Ho, Hs. cbn [map Ping.run Ping.start Ping.stop Ping.step].
    unfold Ping.onTimer. cbn [Ping.hasDiscardedFirst Ping.start negb Ping.pinger Ping.stop].
    fold p0. fold l0. repeat split; assumption.
Qed.

Lemma length_insert (a : Float.F A) (l : list (Float.F A)) :
  List.length (Stat.insert A a l) = S (List.length l).
Proof.
  induction l as [|b r IH]; [reflexivity|].
  cbn. destruct (Stat.less A a b); cbn; [reflexivity|]. rewrite IH. reflexivity.
Qed.

Lemma length_Sort (l : list (Float.F A)) :
  List.length (Stat.Sort A l) = List.length l.
Proof.
  induction l as [|a r IH]; [reflexivity|].
  change (Stat.Sort A (a :: r)) with (Stat.insert A a (Stat.Sort A r)).
  rewrite length_insert, IH. reflexivity.
Qed.

Lemma Summarize_probes (p p' : Ping.Pinger A) (sm : Ping.Summary) :
  Ping.Summarize p = Some (p', sm) -> Ping.probes sm = Ping.getTotal p.
Proof.
  unfold Ping.Summarize. cbv zeta.
  destruct (Ping.getMinDuration _); [|discriminate].
  destruct (Ping.getMaxDuration _); [|discriminate].
  destruct (Ping.getQuantile _ 5 10); [|discriminate].
  destruct (Ping.getQuantile _ 95 100); [|discriminate].
  destruct (Ping.getQuantile _ 99 100); [|discriminate].
  intros [= <- <-]. cbn. unfold Ping.getTotal. cbn.
  rewrite length_Sort. reflexivity.
Qed.

(** C4. A run of the loop over [N >= 1] probes that is not stopped early (no
    stop signal, and a counter that is unbounded or at least [N - 1]) takes
    all of them: every result is printed, the first one included, in the
    order of the ticks; the first result is not logged, so the durations are
    those of the other probes and the total is [N - 1], which is also the
    number of probes a summary of that state reports. *)
Theorem Ping_excludes_first_probe (terminal : bool) (interval counter : Z)
        (results : list Ping.Stats) :
  (1 <= List.length results)%nat ->
  Int64.in_range counter ->
  counter <= 0 \/ Z.of_nat (List.length results) <= counter + 1 ->
  exists l,
    Ping.run pf (Ping.start (Ping.NewPinger A terminal interval counter))
      (map Ping.Timer results) = Some (l, []) /\
    map Ping.shown (Ping.out (Ping.pinger l)) = results /\
    Ping.durations (Ping.pinger l) = map sample (tl results) /\
    Ping.getTotal (Ping.pinger l) = Z.of_nat (List.length results) - 1 /\
    (forall p' sm, Ping.Summarize (Ping.pinger l) = Some (p', sm) ->
                   Ping.probes sm = Z.of_nat (List.length results) - 1).
Proof.
  intros HN Hr Hc. destruct results as [|s0 ps]; [cbn in HN; lia|].
  destruct (run_timers terminal interval counter s0 ps Hr) as (l & R & D & O & _).
  { cbn [List.length] in Hc. lia. }
  assert (T : Ping.getTotal (Ping.pinger l)
              = Z.of_nat (List.length (s0 :: ps)) - 1).
  { unfold Ping.getTotal. rewrite D, length_map. cbn [List.length]. lia. }
  exists l. repeat split; try assumption.
  intros p' sm E. rewrite (Summarize_probes _ _ _ E). exact T.
Qed.

(** C5. With a counter [c > 0] and no stop signal the loop leaves after
    exactly [c + 1] probes, the warm-up and [c] logged samples, whatever
    ticks would follow, and not before; with [c <= 0] no number of probes
    makes it leave. *)
Theorem Ping_counter_limit (terminal : bool) (interval counter : Z) :
  Int64.in_range counter ->
  let p0 := Ping.NewPinger A terminal interval counter in
  (0 < counter ->
   forall results more,
     Z.of_nat (List.length results) = counter + 1 ->
     exists l,
       Ping.run pf (Ping.start p0) (map Ping.Timer (results ++ more))
       = Some (l, map Ping.Timer more) /\
       Ping.stop l = true /\
       Ping.getTotal (Ping.pinger l) = counter /\
       Ping.durations (Ping.pinger l) = map sample (tl results) /\
       exists p', Ping.Ping pf p0 (map Ping.Timer (results ++ more)) = Some p' /\
                  Ping.stopC p' = true /\
                  Ping.durations p' = map sample (tl results)) /\
  (0 < counter ->
   forall results,
     Z.of_nat (List.length results) <= counter ->
     exists l,
       Ping.run pf (Ping.start p0) (map Ping.Timer results) = Some (l, []) /\
       Ping.stop l = false) /\
  (counter <= 0 ->
   forall results,
     exists l,
       Ping.run pf (Ping.start p0) (map Ping.Timer results) = Some (l, []) /\
       Ping.stop l = false).
Proof.
  intros Hr p0. split; [|split].
  - intros Hc results more HN.
    destruct results as [|s0 ps]; [cbn in HN; lia|].
    cbn [List.length] in HN.
    destruct (run_timers terminal interval counter s0 ps Hr) as (l & R & D & O & S);
      [right; lia|].
    assert (S' : Ping.stop l = true).
    { rewrite S. apply andb_true_iff.
      split; [apply Z.ltb_lt|apply Z.leb_le]; lia. }
    pose proof (run_stopped_app _ (map Ping.Timer more) _ _ R S') as R'.
    rewrite <- map_app in R'. fold p0 in R'.
    exists l. split; [exact R'|]. split; [exact S'|].
    split; [unfold Ping.getTotal; rewrite D, length_map; lia|].
    split; [exact D|].
    unfold Ping.Ping. rewrite R', S'.
    assert (Ro : Ping.stopOnce (Ping.pinger l) = false
                 /\ Ping.stopC (Ping.pinger l) = false).
    { clear R' S S' O D HN.
      assert (G : forall es (l1 l2 : Ping.loop A) rest,
                 Ping.run pf l1 (map Ping.Timer es) = Some (l2, rest) ->
                 Ping.stopOnce (Ping.pinger l2) = Ping.stopOnce (Ping.pinger l1) /\
                 Ping.stopC (Ping.pinger l2) = Ping.stopC (Ping.pinger l1)).
      { induction es as [|e es IH]; intros l1 l2 rest E.
        - cbn in E. injection E as <- _. split; reflexivity.
        - cbn [map Ping.run] in E. destruct (Ping.stop l1).
          + injection E as <- _. split; reflexivity.
          + cbn [Ping.step] in E. apply IH in E as [E1 E2].
            rewrite E1, E2. unfold Ping.onTimer.
            destruct (negb (Ping.hasDiscardedFirst l1)); cbn [Ping.pinger];
              unfold Ping.printPingResult, Ping.logStats;
              destruct (Ping.Error e) as [err|]; cbn;
              try destruct (GoError.Is err GoError.TargetCanceled);
              split; reflexivity. }
      apply (G _ _ _ _ R). }
    destruct Ro as [Ro Rc]. unfold Ping.Stop. rewrite Ro, Rc.
    eexists. split; [reflexivity|]. cbn. split; [reflexivity|exact D].
  - intros Hc results HN.
    destruct results as [|s0 ps].
    + exists (Ping.start p0). split; reflexivity.
    + cbn [List.length] in HN.
      destruct (run_timers terminal interval counter s0 ps Hr) as (l & R & D & O & S);
        [right; lia|].
      exists l. split; [exact R|]. rewrite S. apply andb_false_iff.
      right. apply Z.leb_gt. lia.
  - intros Hc results.
    destruct results as [|s0 ps].
    + exists (Ping.start p0). split; reflexivity.
    + destruct (run_timers terminal interval counter s0 ps Hr) as (l & R & D & O & S);
        [left; lia|].
      exists l. split; [exact R|]. rewrite S. apply andb_false_iff.
      left. apply Z.ltb_ge. lia.
Qed.

End LoopFacts.

Lemma Ping_excludes_first_probe_witness :
  let results := [Ping.connected 30; Ping.cancelled 10; Ping.connected 20] in
  exists l,
    Ping.run GoError.linux
      (Ping.start (Ping.NewPinger Float.float64 false 0 0))
      (map Ping.Timer results) = Some (l, []) /\
    map Ping.shown (Ping.out (Ping.pinger l)) = results /\
    Ping.durations (Ping.pinger l)
    = map (fun stats => Float.ofInt64 Float.float64 (Ping.Duration stats))
          (tl results) /\
    Ping.getTotal (Ping.pinger l) = Z.of_nat (List.length results) - 1 /\
    (forall p' sm, Ping.Summarize (Ping.pinger l) = Some (p', sm) ->
                   Ping.probes sm = Z.of_nat (List.length results) - 1).
Proof.
  apply (Ping_excludes_first_probe GoError.linux Float.float64 false 0 0
           [Ping.connected 30; Ping.cancelled 10; Ping.connected 20]).
  - simpl. lia.
  - unfold Int64.in_range, Int64.min_int, Int64.max_int. lia.
  - left. lia.
Defined.

Lemma Ping_counter_limit_witness :
  let p0 := Ping.NewPinger Float.float64 false 0 3 in
  (0 < 3 ->
   forall results more,
     Z.of_nat (List.length results) = 3 + 1 ->
     exists l,
       Ping.run GoError.linux (Ping.start p0) (map Ping.Timer (results ++ more))
       = Some (l, map Ping.Timer more) /\
       Ping.stop l = true /\
       Ping.getTotal (Ping.pinger l) = 3 /\
       Ping.durations (Ping.pinger l)
       = map (fun stats => Float.ofInt64 Float.float64 (Ping.Duration stats))
             (tl results) /\
       exists p',
         Ping.Ping GoError.linux p0 (map Ping.Timer (results ++ more)) = Some p' /\
         Ping.stopC p' = true /\
         Ping.durations p'
         = map (fun stats => Float.ofInt64 Float.float64 (Ping.Duration stats))
               (tl results)) /\
  (0 < 3 ->
   forall results,
     Z.of_nat (List.length results) <= 3 ->
     exists l,
       Ping.run GoError.linux (Ping.start p0) (map Ping.Timer results)
       = Some (l, []) /\
       Ping.stop l = false) /\
  (3 <= 0 ->
   forall results,
     exists l,
       Ping.run GoError.linux (Ping.start p0) (map Ping.Timer results)
       = Some (l, []) /\
       Ping.stop l = false).
Proof.
  apply (Ping_counter_limit GoError.linux Float.float64 false 0 3).
  unfold Int64.in_range, Int64.min_int, Int64.max_int. lia.
Defined.

(** The counter-limit scenario: a counter of 3 and probes that always
    connect in 10ms; the loop leaves after the fourth probe with three
    samples, and the fifth tick is never taken. *)
Example Ping_counter_3 :
  let tick := Ping.Timer (Ping.connected 10000000) in
  match Ping.run GoError.linux
          (Ping.start (Ping.NewPinger Float.float64 false 0 3))
          [tick; tick; tick; tick; tick] with
  | Some (l, rest) =>
      Ping.stop l = true /\ Ping.getTotal (Ping.pinger l) = 3 /\ rest = [tick]
  | None => False
  end.
Proof. vm_compute. repeat split; reflexivity. Qed.

(** ** The classification of errors *)

Section FormatErrorFacts.

Variable pf : GoError.Platform.

Import GoError.

Lemma formatError_UrlError (op url : string) (inner : error) :
  Ping.formatError pf (UrlError op url inner) =
  if match Timeout pf inner with Some t => t | None => false end
  then "timeout"%string
  else Ping.formatError pf inner.
Proof. reflexivity. Qed.

Lemma formatError_not_UrlError (e : error) :
  isUrlError e = false ->
  Ping.formatError pf e =
  if isNetError e then
    if match Timeout pf e with Some t => t | None => false end
    then "timeout"%string
    else match osError e with
         | Some os => Error pf os
         | None => Error pf e
         end
  else if Is e TargetDeadlineExceeded then "timeout"%string
  else Error pf e.
Proof.
  destruct e as [op url inner|op net src addr inner|sc inner|code| | |text
                 |text inner|text tm tmp isD isC]; intros U;
    try discriminate U; try reflexivity.
  destruct inner; reflexivity.
Qed.

(** C3, amended. [formatError] gives ["timeout"] for a [*url.Error] and for
    any [net.Error] whose [Timeout()] reports true, [context.DeadlineExceeded]
    among them, and for an error of another type that wraps
    [context.DeadlineExceeded]; for a [*url.Error] that is not a timeout it
    gives the classification of the wrapped error; for a [*net.OpError] that
    is not a timeout and holds an [*os.SyscallError], the text of the
    operating-system error inside; and for every other error, with
    [context.Canceled] among them, its [Error()] text. *)
Theorem formatError_classification (e : error) :
  (* timeouts at the two layers *)
  ((isUrlError e = true \/ isNetError e = true) ->
   Timeout pf e = Some true ->
   Ping.formatError pf e = "timeout"%string) /\
  (* the deadline of the context, bare or wrapped *)
  Ping.formatError pf DeadlineExceeded = "timeout"%string /\
  (isUrlError e = false -> isNetError e = false ->
   Is e TargetDeadlineExceeded = true ->
   Ping.formatError pf e = "timeout"%string) /\
  (* a cancellation is not a timeout *)
  Ping.formatError pf Canceled = "context canceled"%string /\
  (* a url.Error that did not time out is looked through *)
  (forall op url inner,
     e = UrlError op url inner ->
     Timeout pf e = Some false ->
     Ping.formatError pf e = Ping.formatError pf inner) /\
  (* the error of the operating system *)
  (forall os,
     osError e = Some os ->
     Timeout pf e = Some false ->
     Ping.formatError pf e = Error pf os) /\
  (* everything else *)
  (isUrlError e = false -> isNetError e = true ->
   Timeout pf e <> Some true -> osError e = None ->
   Ping.formatError pf e = Error pf e) /\
  (isUrlError e = false -> isNetError e = false ->
   Is e TargetDeadlineExceeded = false ->
   Ping.formatError pf e = Error pf e).
Proof.
  split; [|split; [reflexivity|split; [|split; [reflexivity|split; [|split; [|split]]]]]].
  - intros H T. destruct (isUrlError e) eqn:U.
    + destruct e; try discriminate U.
      rewrite formatError_UrlError. cbn in T. injection T as ->. reflexivity.
    + destruct H as [H|N]; [discriminate H|].
      rewrite (formatError_not_UrlError e U), N, T. reflexivity.
  - intros U N D. rewrite (formatError_not_UrlError e U), N, D. reflexivity.
  - intros op url inner -> T. rewrite formatError_UrlError.
    cbn in T. injection T as ->. reflexivity.
  - intros os O T.
    assert (U : isUrlError e = false) by (destruct e; try discriminate O; reflexivity).
    assert (N : isNetError e = true) by (destruct e; try discriminate O; reflexivity).
    rewrite (formatError_not_UrlError e U), N, T, O. reflexivity.
  - intros U N T O. rewrite (formatError_not_UrlError e U), N, O.
    destruct (Timeout pf e) as [[|]|]; try reflexivity. contradiction.
  - intros U N D. rewrite (formatError_not_UrlError e U), N, D. reflexivity.
Qed.

End FormatErrorFacts.

(** C3, as stated, fails: a context cancellation is rendered by its own
    text, not as ["timeout"]; so is the cancellation the [net] package
    reports for a dial, and a [*url.Error] does not render its own text. *)
Lemma formatError_cancellation_is_not_timeout :
  Ping.formatError GoError.linux GoError.Canceled = "context canceled"%string /\
  Ping.formatError GoError.linux GoError.Canceled <> "timeout"%string /\
  GoError.Is GoError.Canceled GoError.TargetCanceled = true.
Proof. repeat split. discriminate. Qed.

Section FormatErrorScenarios.

Local Open Scope string_scope.

Example formatError_scenarios :
  let refused :=
    GoError.OpError "dial" "tcp" None (Some "10.0.0.1:80")
      (GoError.SyscallError "connect" (GoError.Errno 111)) in
  let timedOut :=
    GoError.OpError "dial" "tcp" None (Some "10.0.0.1:80")
      (GoError.SyscallError "connect" (GoError.Errno 110)) in
  let ioTimeout :=
    GoError.OpError "dial" "tcp" None (Some "10.0.0.1:80")
      (GoError.Custom "i/o timeout" (Some true) true true false) in
  let dialCancelled :=
    GoError.OpError "dial" "tcp" None (Some "10.0.0.1:80")
      (GoError.Custom "operation was canceled" None false false true) in
  Ping.formatError GoError.linux GoError.DeadlineExceeded = "timeout"%string /\
  Ping.formatError GoError.linux ioTimeout = "timeout"%string /\
  Ping.formatError GoError.linux (GoError.UrlError "Get" "http://a/" ioTimeout)
  = "timeout"%string /\
  Ping.formatError GoError.linux
    (GoError.WrapError "probe: context deadline exceeded" GoError.DeadlineExceeded)
  = "timeout"%string /\
  Ping.formatError GoError.linux timedOut = "timeout"%string /\
  Ping.formatError GoError.linux refused = "connection refused"%string /\
  Ping.formatError GoError.linux (GoError.UrlError "Get" "http://a/" refused)
  = "connection refused"%string /\
  Ping.formatError GoError.linux dialCancelled
  = "dial tcp 10.0.0.1:80: operation was canceled"%string /\
  GoError.Is dialCancelled GoError.TargetCanceled = true /\
  Ping.formatError GoError.linux (GoError.ErrorString "status 500")
  = "status 500"%string.
Proof. vm_compute. repeat split; reflexivity. Qed.

End FormatErrorScenarios.

(** ** The report on an empty sample set *)

(** C2, as the code has it: with no sample stored, [Summarize] does not
    return zero-valued statistics: [getMinDuration] calls [stat.Quantile] on
    the empty slice, which panics, whatever the arithmetic; only the average
    is guarded by [pTotal != 0]. This is the state after [NewPinger] and
    also the state after a run that made the warm-up probe only. *)
Theorem Summarize_empty_panics (A : Float.Arith) (pf : GoError.Platform)
        (terminal : bool) (interval counter : Z) (s0 : Ping.Stats) :
  let p0 := Ping.NewPinger A terminal interval counter in
  Ping.getMinDuration p0 = None /\
  Ping.Summarize p0 = None /\
  exists l,
    Ping.run pf (Ping.start p0) [Ping.Timer s0] = Some (l, []) /\
    Ping.getTotal (Ping.pinger l) = 0 /\
    Ping.Summarize (Ping.pinger l) = None.
Proof.
  assert (Q : forall q c, Stat.Quantile A q c [] = None).
  { intros q c. unfold Stat.Quantile.
    destruct (negb _); reflexivity. }
  assert (S : forall p : Ping.Pinger A,
             Ping.durations p = [] -> Ping.Summarize p = None).
  { intros p E. unfold Ping.Summarize, Ping.getMinDuration. cbv zeta.
    cbn [Ping.sortDurations Ping.durations]. rewrite E. cbn [Stat.Sort fold_right].
    rewrite Q. reflexivity. }
  intros p0. split; [|split].
  - unfold Ping.getMinDuration. cbn [p0 Ping.NewPinger Ping.durations].
    rewrite Q. reflexivity.
  - apply S. reflexivity.
  - eexists. split; [reflexivity|].
    cbn [Ping.onTimer Ping.start Ping.hasDiscardedFirst negb Ping.pinger].
    assert (D : Ping.durations (Ping.printPingResult pf p0 s0) = []).
    { unfold Ping.printPingResult. destruct (Ping.Error s0); reflexivity. }
    split; [unfold Ping.getTotal; rewrite D; reflexivity|].
    apply S. exact D.
Qed.

(** ** The quantiles of the report

    In exact arithmetic the interpolation of [stat.Quantile] is a convex
    combination of two neighbours of the sorted samples, so the quantiles
    are ordered; [float64] rounds each product and the sum. *)

Section ExactFacts.

Local Open Scope Q_scope.

Local Abbreviation X := Float.exact.




























End ExactFacts.


(** Three probes of 30ms, 10ms and 20ms: the exact quantiles, and the
    [float64] ones, which rounding and truncation put one nanosecond
    lower. *)
Example Summarize_three_probes :
  let log := fun (A : Float.Arith) =>
    Ping.logStats
      (Ping.logStats
         (Ping.logStats (Ping.NewPinger A false 0 0) (Ping.connected 30000000))
         (Ping.connected 10000000))
      (Ping.connected 20000000) in
  option_map snd (Ping.Summarize (log Float.exact))
  = Some {| Ping.probes := 3; Ping.successful := 3; Ping.failed := 0;
            Ping.Minimum := 10000000; Ping.Maximum := 30000000;
            Ping.Average := 20000000; Ping.p50 := 15000000;
            Ping.p95 := 28500000; Ping.p99 := 29700000 |} /\
  option_map snd (Ping.Summarize (log Float.float64))
  = Some {| Ping.probes := 3; Ping.successful := 3; Ping.failed := 0;
            Ping.Minimum := 10000000; Ping.Maximum := 30000000;
            Ping.Average := 20000000; Ping.p50 := 15000000;
            Ping.p95 := 28499999; Ping.p99 := 29699999 |}.
Proof. split; vm_compute; reflexivity. Qed.


(** * Further properties of the package *)

(** ** Protocol names *)

Section ProtocolExtras.
Import Protocol.
Variable mapLower : string -> string.

(** X1. [NewProtocol(p.String())] gives [p] back exactly for the three
    protocols; every other value of the type prints as [unknown], which does
    not parse; and the three names are distinct. *)
Theorem String_parses_back_iff (p : Protocol.Protocol) :
  (NewProtocol mapLower (Protocol.String p) = (p, None) <->
   In p [TCP; HTTP; HTTPS]) /\
  (~ In p [TCP; HTTP; HTTPS] ->
   Protocol.String p = "unknown"%string /\
   NewProtocol mapLower (Protocol.String p)
   = (0, Some (Errorf_not_support "unknown"))) /\
  (forall q, In p [TCP; HTTP; HTTPS] -> In q [TCP; HTTP; HTTPS] ->
             Protocol.String p = Protocol.String q -> p = q).
Proof.
  assert (U : ~ In p [TCP; HTTP; HTTPS] -> Protocol.String p = "unknown"%string).
  { intros N. unfold Protocol.String.
    destruct (Z.eqb_spec p TCP) as [->|N0]; [exfalso; apply N; simpl; auto|].
    destruct (Z.eqb_spec p HTTP) as [->|N1]; [exfalso; apply N; simpl; auto|].
    destruct (Z.eqb_spec p HTTPS) as [->|N2]; [exfalso; apply N; simpl; auto|].
    reflexivity. }
  split; [|split].
  - split.
    + intros E.
      destruct (Z.eq_dec p TCP) as [->|N0]; [simpl; auto|].
      destruct (Z.eq_dec p HTTP) as [->|N1]; [simpl; auto|].
      destruct (Z.eq_dec p HTTPS) as [->|N2]; [simpl; auto|].
      exfalso. rewrite U in E by (simpl; intuition congruence).
      cbv in E. discriminate E.
    + intros [<-|[<-|[<-|[]]]]; reflexivity.
  - intros N. split; [exact (U N)|]. rewrite (U N). reflexivity.
  - intros q [<-|[<-|[<-|[]]]] [<-|[<-|[<-|[]]]] E; try reflexivity;
      cbv in E; discriminate E.
Qed.
End ProtocolExtras.

(** ** The registry *)

Section RegistryExtras.
Variable Factory : Type.
Local Abbreviation registry := (Registry.registry Factory).

Lemma Load_Register (m : registry) (k p : Z) (v : option Factory) :
  Registry.Load Factory (Registry.Register Factory m k v) p
  = if k =? p then v else Registry.Load Factory m p.
Proof.
  unfold Registry.Load, Registry.Register, Registry.assign, Registry.index.
  cbn [find fst]. destruct (Z.eqb_spec k p) as [->|N]; [reflexivity|].
  induction m as [|[k' v'] m IH]; [reflexivity|].
  cbn [filter find fst].
  destruct (Z.eqb_spec k' k) as [->|N']; cbn [negb].
  - destruct (Z.eqb_spec k p); [contradiction|]. exact IH.
  - cbn [find fst]. destruct (k' =? p); [reflexivity|exact IH].
Qed.

Lemma keys_Register (m : registry) (k : Z) (v : option Factory) :
  NoDup (map fst m) -> NoDup (map fst (Registry.Register Factory m k v)).
Proof.
  intros N. unfold Registry.Register, Registry.assign. cbn [map fst].
  constructor.
  - intros I. apply in_map_iff in I as ([k' v'] & E & I). cbn in E. subst k'.
    apply filter_In in I as [_ I]. cbn in I. rewrite Z.eqb_refl in I.
    discriminate I.
  - induction m as [|[k' v'] m IH]; [constructor|].
    cbn [map fst] in N. inversion N as [|? ? Hn N']; subst.
    cbn [filter fst]. destruct (negb (k' =? k)); [|exact (IH N')].
    cbn [map fst]. constructor; [|exact (IH N')].
    intros I. apply Hn. apply in_map_iff in I as (kv & E & I).
    apply filter_In in I as [I _]. apply in_map_iff. exists kv. auto.
Qed.

(** X2. After any sequence of registrations on the empty registry, [Load]
    answers the factory of the last registration made for the protocol, and
    nil for a protocol that was never registered; the map holds one entry a
    protocol. *)
Theorem Load_after_registrations (calls : list (Z * option Factory)) (p : Z) :
  Registry.Load Factory (Registry.RegisterAll Factory (Registry.pinger Factory) calls) p
  = match find (fun call => fst call =? p) (rev calls) with
    | Some call => snd call
    | None => None
    end /\
  NoDup (map fst (Registry.RegisterAll Factory (Registry.pinger Factory) calls)).
Proof.
  induction calls as [|[k v] calls [IH1 IH2]] using rev_ind.
  - split; [reflexivity|constructor].
  - unfold Registry.RegisterAll in *. rewrite fold_left_app. cbn [fold_left fst snd].
    rewrite rev_app_distr. cbn [rev app find fst snd].
    rewrite Load_Register. split.
    + destruct (k =? p); [reflexivity|exact IH1].
    + apply keys_Register. exact IH2.
Qed.
End RegistryExtras.

(** ** The metadata line *)

Section MetaFacts.

Local Open Scope string_scope.



Lemma ltb_lt (a b : string) : String.ltb a b = true <-> String_as_OT.lt a b.
Proof.
  unfold String.ltb. rewrite <- String_as_OT.cmp_lt. unfold String_as_OT.cmp.
  destruct (String.compare a b); split; congruence.
Qed.

Lemma notAfter_total (a b : string) : Meta.notAfter a b \/ Meta.notAfter b a.
Proof.
  unfold Meta.notAfter, String.ltb. rewrite (String.compare_antisym a b).
  destruct (String.compare b a); cbn; auto.
Qed.

Lemma ltb_false_notAfter (a b : string) : String.ltb a b = false -> Meta.notAfter b a.
Proof. intros H. exact H. Qed.

Lemma ltb_true_notAfter (a b : string) : String.ltb a b = true -> Meta.notAfter a b.
Proof.
  unfold Meta.notAfter, String.ltb. rewrite (String.compare_antisym a b).
  destruct (String.compare b a); cbn; congruence.
Qed.

Lemma notAfter_antisym (a b : string) : Meta.notAfter a b -> Meta.notAfter b a -> a = b.
Proof.
  unfold Meta.notAfter, String.ltb. intros H1 H2.
  rewrite (String.compare_antisym b a) in H1.
  destruct (String.compare a b) eqn:C; cbn in *; try discriminate.
  apply String.compare_eq_iff. exact C.
Qed.

Lemma notAfter_trans (a b c : string) : Meta.notAfter a b -> Meta.notAfter b c -> Meta.notAfter a c.
Proof.
  unfold Meta.notAfter. intros H1 H2.
  destruct (String.ltb c a) eqn:L; [|reflexivity]. exfalso.
  apply ltb_lt in L.
  (* c < a; b is not before a ... *)
  destruct (String.compare a b) eqn:C.
  - apply String.compare_eq_iff in C. subst b.
    apply ltb_lt in L. congruence.
  - (* a < b, so c < b *)
    assert (Lab : String_as_OT.lt a b) by (apply String_as_OT.cmp_lt; exact C).
    pose proof (String_as_OT.lt_trans _ _ _ L Lab) as Lcb.
    apply ltb_lt in Lcb. congruence.
  - (* b < a contradicts H1 *)
    assert (String.ltb b a = true).
    { unfold String.ltb. rewrite String.compare_antisym, C. reflexivity. }
    congruence.
Qed.

Lemma In_insertString (a z : string) (l : list string) :
  In z (Meta.insertString a l) <-> z = a \/ In z l.
Proof.
  induction l as [|b r IH]; cbn; [intuition congruence|].
  destruct (String.ltb a b); cbn; [intuition congruence|].
  rewrite IH. intuition congruence.
Qed.

Lemma Permutation_insertString (a : string) (l : list string) :
  Permutation (Meta.insertString a l) (a :: l).
Proof.
  induction l as [|b r IH]; [apply Permutation_refl|].
  cbn. destruct (String.ltb a b); [apply Permutation_refl|].
  eapply Permutation_trans; [apply perm_skip; exact IH|apply perm_swap].
Qed.

Lemma Permutation_sortStrings (l : list string) :
  Permutation (Meta.sortStrings l) l.
Proof.
  induction l as [|a r IH]; [apply Permutation_refl|].
  change (Meta.sortStrings (a :: r))
    with (Meta.insertString a (Meta.sortStrings r)).
  eapply Permutation_trans;
    [apply Permutation_insertString|apply perm_skip; exact IH].
Qed.

Lemma sorted_insertString (a : string) (l : list string) :
  StronglySorted Meta.notAfter l -> StronglySorted Meta.notAfter (Meta.insertString a l).
Proof.
  induction l as [|b r IH]; intros S; cbn.
  - constructor; constructor.
  - inversion S as [|? ? Sr F]; subst.
    destruct (String.ltb a b) eqn:L.
    + constructor; [exact S|]. apply ltb_true_notAfter in L.
      constructor; [exact L|]. rewrite Forall_forall in *.
      intros z Hz. exact (notAfter_trans _ _ _ L (F z Hz)).
    + constructor; [exact (IH Sr)|]. rewrite Forall_forall in *.
      intros z Hz. apply In_insertString in Hz as [->|Hz];
        [exact L|exact (F z Hz)].
Qed.

Lemma sorted_sortStrings (l : list string) :
  StronglySorted Meta.notAfter (Meta.sortStrings l).
Proof.
  induction l as [|a r IH]; [constructor|].
  change (Meta.sortStrings (a :: r))
    with (Meta.insertString a (Meta.sortStrings r)).
  apply sorted_insertString. exact IH.
Qed.

Lemma sorted_unique (l : list string) : forall l',
  StronglySorted Meta.notAfter l -> StronglySorted Meta.notAfter l' ->
  Permutation l l' -> l = l'.
Proof.
  induction l as [|a r IH]; intros l' S S' P.
  - apply Permutation_nil in P. congruence.
  - destruct l' as [|b r']; [apply Permutation_sym, Permutation_nil in P; discriminate|].
    inversion S as [|? ? Sr F]; subst. inversion S' as [|? ? Sr' F']; subst.
    rewrite Forall_forall in F, F'.
    assert (a = b).
    { assert (Ib : In b (a :: r)) by (eapply Permutation_in;
        [apply Permutation_sym; exact P|left; reflexivity]).
      assert (Ia : In a (b :: r')) by (eapply Permutation_in;
        [exact P|left; reflexivity]).
      destruct Ib as [E|Ib]; [exact E|]. destruct Ia as [E|Ia]; [congruence|].
      apply notAfter_antisym; [exact (F b Ib)|exact (F' a Ia)]. }
    subst b. f_equal. apply IH; try assumption.
    exact (Permutation_cons_inv P).
Qed.

Lemma lookup_In (m : Meta.meta) (key : string) :
  In key (map fst m) -> exists v, Meta.lookup m key = Some v /\ In (key, v) m.
Proof.
  unfold Meta.lookup. induction m as [|[k v] m IH]; intros I; [contradiction|].
  cbn [find fst]. destruct (String.eqb_spec k key) as [->|N].
  - exists v. split; [reflexivity|left; reflexivity].
  - destruct I as [E|I]; [cbn in E; contradiction|].
    destruct (IH I) as (v' & E & I'). exists v'. split; [exact E|right; exact I'].
Qed.

Lemma lookup_unique (m : Meta.meta) (key v : string) :
  NoDup (map fst m) -> In (key, v) m -> Meta.lookup m key = Some v.
Proof.
  unfold Meta.lookup. induction m as [|[k w] m IH]; intros N I; [contradiction|].
  cbn [map fst] in N. inversion N as [|? ? Hn N']; subst.
  cbn [find fst]. destruct (String.eqb_spec k key) as [->|Ne].
  - destruct I as [E|I]; [injection E as ->; reflexivity|].
    exfalso. apply Hn. apply in_map_iff. exists (key, v). auto.
  - destruct I as [E|I]; [congruence|]. exact (IH N' I).
Qed.

Lemma lookup_None (m : Meta.meta) (key : string) :
  Meta.lookup m key = None -> ~ In key (map fst m).
Proof.
  intros E I. destruct (lookup_In m key I) as (v & E' & _). congruence.
Qed.

Lemma lookup_Permutation (m m' : Meta.meta) (key : string) :
  NoDup (map fst m) -> Permutation m m' ->
  Meta.lookup m key = Meta.lookup m' key.
Proof.
  intros N P.
  assert (N' : NoDup (map fst m'))
    by (eapply Permutation_NoDup; [apply Permutation_map; exact P|exact N]).
  destruct (Meta.lookup m key) as [v|] eqn:E.
  - assert (I : In key (map fst m)).
    { unfold Meta.lookup in E. destruct (find _ m) as [[k w]|] eqn:Fd; [|discriminate].
      apply find_some in Fd as [I Q]. cbn in Q. apply String.eqb_eq in Q. subst k.
      apply in_map_iff. exists (key, w). auto. }
    destruct (lookup_In m key I) as (v' & E' & I'). rewrite E in E'.
    injection E' as <-. symmetry. apply lookup_unique; [exact N'|].
    eapply Permutation_in; eassumption.
  - destruct (Meta.lookup m' key) as [v'|] eqn:E'; [|reflexivity].
    exfalso. apply (lookup_None m key E).
    assert (I : In key (map fst m')).
    { unfold Meta.lookup in E'. destruct (find _ m') as [[k w]|] eqn:Fd; [|discriminate].
      apply find_some in Fd as [I Q]. cbn in Q. apply String.eqb_eq in Q. subst k.
      apply in_map_iff. exists (key, w). auto. }
    eapply Permutation_in; [apply Permutation_sym, Permutation_map; exact P|exact I].
Qed.

Lemma writeKeys_ext (m m' : Meta.meta) (keys : list string) : forall n i b,
  (forall k, Meta.lookup m k = Meta.lookup m' k) ->
  Meta.writeKeys m n i keys b = Meta.writeKeys m' n i keys b.
Proof.
  induction keys as [|k keys IH]; intros n i b H; [reflexivity|].
  cbn [Meta.writeKeys]. rewrite <- H. destruct (Meta.lookup m k); [|reflexivity].
  apply IH. exact H.
Qed.



(** X4. The text of [FormatMeta] does not depend on the order in which
    [range] yields the entries of the map. *)
Theorem FormatMeta_order_independent (m m' : Meta.meta) :
  NoDup (map fst m) -> Permutation m m' ->
  Meta.FormatMeta m = Meta.FormatMeta m'.
Proof.
  intros N P. unfold Meta.FormatMeta.
  assert (K : Meta.sortStrings (map fst m) = Meta.sortStrings (map fst m')).
  { apply sorted_unique; try apply sorted_sortStrings.
    eapply Permutation_trans; [apply Permutation_sortStrings|].
    eapply Permutation_trans; [apply Permutation_map; exact P|].
    apply Permutation_sym, Permutation_sortStrings. }
  rewrite <- K. apply writeKeys_ext.
  intros k. apply lookup_Permutation; assumption.
Qed.

End MetaFacts.

(** ** Runs of the loop with stop signals *)

Section TraceFacts.

Variable pf : GoError.Platform.
Variable A : Float.Arith.

Local Abbreviation sample :=
  (fun stats : Ping.Stats => Float.ofInt64 A (Ping.Duration stats)).

Lemma timers_app (es es' : list Ping.event) :
  Trace.timers (es ++ es') = Trace.timers es ++ Trace.timers es'.
Proof.
  induction es as [|e es IH]; [reflexivity|].
  destruct e; cbn; rewrite IH; reflexivity.
Qed.

Lemma step_records (l l' : Ping.loop A) (e : Ping.event) (hist : list Ping.Stats) :
  Trace.records l hist ->
  Ping.step pf l e = Some l' ->
  Trace.records l' (hist ++ Trace.timers [e]).
Proof.
  intros (Ho & Hd & Hf) E. destruct e as [stats| |]; cbn [Trace.timers].
  - cbn [Ping.step] in E. injection E as <-.
    destruct hist as [|h0 hist].
    + cbn in Hf. unfold Trace.records, Ping.onTimer. rewrite Hf. cbn [negb Ping.pinger Ping.hasDiscardedFirst].
      pose proof (printPingResult_fields pf A (Ping.pinger l) stats) as (_ & D & _ & O).
      rewrite O, D, Ho, Hd. repeat split.
    + cbn in Hf.
      pose proof (onTimer_counted pf A l stats Hf) as (F & _ & D & O & _).
      unfold Trace.records. rewrite F, D, O, Ho, Hd. cbn [tl app].
      rewrite map_app. repeat split.
  - rewrite app_nil_r. cbn [Ping.step] in E.
    destruct (Ping.Done (Ping.pinger l)); [|discriminate]. injection E as <-.
    repeat split; assumption.
  - rewrite app_nil_r. cbn [Ping.step] in E.
    destruct (Ping.Stop (Ping.pinger l)) as [p'|] eqn:S; [|discriminate].
    injection E as <-. apply Stop_closes in S as (_ & _ & D & _ & _ & O).
    unfold Trace.records. cbn [Ping.pinger Ping.hasDiscardedFirst]. rewrite D, O.
    repeat split; assumption.
Qed.

Lemma run_records (es : list Ping.event) : forall (l l' : Ping.loop A) hist rest,
  Trace.records l hist ->
  Ping.run pf l es = Some (l', rest) ->
  exists taken, es = taken ++ rest /\ Trace.records l' (hist ++ Trace.timers taken).
Proof.
  induction es as [|e es IH]; intros l l' hist rest R E.
  - cbn in E. injection E as <- <-. exists []. split; [reflexivity|].
    cbn [Trace.timers]. rewrite app_nil_r. exact R.
  - cbn [Ping.run] in E. destruct (Ping.stop l).
    + injection E as <- <-. exists []. split; [reflexivity|].
      cbn [Trace.timers]. rewrite app_nil_r. exact R.
    + destruct (Ping.step pf l e) as [l1|] eqn:S; [|discriminate].
      destruct (IH l1 l' _ rest (step_records _ _ _ _ R S) E) as (taken & -> & R').
      exists (e :: taken). split; [reflexivity|].
      change (e :: taken) with ([e] ++ taken). rewrite timers_app, app_assoc.
      exact R'.
Qed.

(** X5. Whatever the run (timer ticks, stop calls from outside and receives
    from the stop channel, in any order), the loop has consumed a prefix of
    the events, printed one line for each probe of that prefix, in order,
    and stored the durations of all of them but the first. *)
Theorem Ping_records_every_probe_but_the_first
        (terminal : bool) (interval counter : Z)
        (es rest : list Ping.event) (l : Ping.loop A) :
  Ping.run pf (Ping.start (Ping.NewPinger A terminal interval counter)) es
  = Some (l, rest) ->
  exists taken,
    es = taken ++ rest /\
    map Ping.shown (Ping.out (Ping.pinger l)) = Trace.timers taken /\
    Ping.durations (Ping.pinger l) = map sample (tl (Trace.timers taken)) /\
    Ping.getTotal (Ping.pinger l)
    = Z.max 0 (Z.of_nat (List.length (Trace.timers taken)) - 1).
Proof.
  intros E.
  assert (R0 : Trace.records (Ping.start (Ping.NewPinger A terminal interval counter)) [])
    by (repeat split).
  destruct (run_records es _ _ [] rest R0 E) as (taken & -> & Ho & Hd & _).
  cbn [app] in *. exists taken. repeat split; try assumption.
  unfold Ping.getTotal. rewrite Hd, length_map.
  destruct (Trace.timers taken); cbn [tl List.length]; lia.
Qed.

Lemma step_within (c : Z) (l l' : Ping.loop A) (e : Ping.event) :
  0 < c -> Int64.in_range c ->
  Trace.within c l -> Ping.stop l = false ->
  Ping.step pf l e = Some l' -> Trace.within c l'.
Proof.
  intros Hc Hr (C & T & S) Hs E. specialize (S Hs).
  destruct e as [stats| |].
  - cbn [Ping.step] in E. injection E as <-.
    destruct (Ping.hasDiscardedFirst l) eqn:F.
    + pose proof (onTimer_counted pf A l stats F) as (_ & C' & D & _ & St).
      assert (T' : Ping.getTotal (Ping.pinger (Ping.onTimer pf l stats))
                   = Ping.getTotal (Ping.pinger l) + 1).
      { unfold Ping.getTotal. rewrite D, length_app. cbn. lia. }
      unfold Trace.within. rewrite C', T', C, St, C.
      unfold Int64.sub. rewrite Int64_wrap_id
        by (unfold Int64.in_range, Int64.min_int, Int64.max_int in *; lia).
      repeat split; [lia|].
      destruct (c >? 0) eqn:G; cbn [andb].
      * destruct (Ping.getTotal (Ping.pinger l) + 1 >? c - 1) eqn:G2;
          [discriminate|].
        intros _. pose proof (Zgt_cases (Ping.getTotal (Ping.pinger l) + 1) (c - 1)) as Z0.
        rewrite G2 in Z0. lia.
      * pose proof (Zgt_cases c 0) as Z0. rewrite G in Z0. lia.
    + unfold Ping.onTimer. rewrite F. cbn [negb].
      pose proof (printPingResult_fields pf A (Ping.pinger l) stats) as (C' & D & _ & _).
      unfold Trace.within, Ping.getTotal in *. cbn [Ping.pinger Ping.stop].
      rewrite C', D. repeat split; try assumption. intros _. exact S.
  - cbn [Ping.step] in E. destruct (Ping.Done (Ping.pinger l)); [|discriminate].
    injection E as <-. unfold Trace.within. cbn [Ping.pinger Ping.stop].
    repeat split; try assumption. discriminate.
  - cbn [Ping.step] in E.
    destruct (Ping.Stop (Ping.pinger l)) as [p'|] eqn:X; [|discriminate].
    injection E as <-. apply Stop_closes in X as (_ & _ & D & _ & C' & _).
    unfold Trace.within, Ping.getTotal in *. cbn [Ping.pinger Ping.stop].
    rewrite D, C'. repeat split; try assumption. intros _. exact S.
Qed.

(** X6. With a counter [c > 0] the loop never stores more than [c]
    durations, whatever the events, and it has set [stop] once it holds
    [c]. *)
Theorem Ping_never_exceeds_counter (terminal : bool) (interval counter : Z)
        (es rest : list Ping.event) (l : Ping.loop A) :
  0 < counter -> Int64.in_range counter ->
  Ping.run pf (Ping.start (Ping.NewPinger A terminal interval counter)) es
  = Some (l, rest) ->
  Ping.getTotal (Ping.pinger l) <= counter /\
  (Ping.getTotal (Ping.pinger l) = counter -> Ping.stop l = true).
Proof.
  intros Hc Hr E.
  assert (G : forall es (l0 l1 : Ping.loop A) rest,
             Trace.within counter l0 -> Ping.run pf l0 es = Some (l1, rest) ->
             Trace.within counter l1).
  { clear E es rest l. induction es as [|e es IH]; intros l0 l1 rest W E.
    - cbn in E. injection E as <- _. exact W.
    - cbn [Ping.run] in E. destruct (Ping.stop l0) eqn:S.
      + injection E as <- _. exact W.
      + destruct (Ping.step pf l0 e) as [l'|] eqn:X; [|discriminate].
        apply (IH l' l1 rest); [|exact E].
        apply (step_within counter l0 l' e); assumption. }
  assert (W0 : Trace.within counter
                 (Ping.start (Ping.NewPinger A terminal interval counter)))
    by (unfold Trace.within, Ping.getTotal; cbn; repeat split; lia).
  destruct (G es _ _ rest W0 E) as (_ & T & S).
  split; [exact T|]. intros Eq. destruct (Ping.stop l); [reflexivity|].
  specialize (S eq_refl). lia.
Qed.

Lemma step_reachable (l l' : Ping.loop A) (e : Ping.event) :
  Ping.reachable pf (Ping.pinger l) ->
  Ping.step pf l e = Some l' ->
  Ping.reachable pf (Ping.pinger l').
Proof.
  intros R E. destruct e as [stats| |]; cbn [Ping.step] in E.
  - injection E as <-. unfold Ping.onTimer.
    destruct (negb (Ping.hasDiscardedFirst l)); cbn [Ping.pinger].
    + apply Ping.reach_print. exact R.
    + apply Ping.reach_print, Ping.reach_logStats. exact R.
  - destruct (Ping.Done (Ping.pinger l)); [|discriminate].
    injection E as <-. exact R.
  - destruct (Ping.Stop (Ping.pinger l)) as [p'|] eqn:S; [|discriminate].
    injection E as <-. cbn [Ping.pinger]. exact (Ping.reach_Stop pf A _ _ R S).
Qed.

Lemma run_reachable (es : list Ping.event) : forall (l l' : Ping.loop A) rest,
  Ping.reachable pf (Ping.pinger l) ->
  Ping.run pf l es = Some (l', rest) ->
  Ping.reachable pf (Ping.pinger l').
Proof.
  induction es as [|e es IH]; intros l l' rest R E.
  - cbn in E. injection E as <- _. exact R.
  - cbn [Ping.run] in E. destruct (Ping.stop l).
    + injection E as <- _. exact R.
    + destruct (Ping.step pf l e) as [l1|] eqn:S; [|discriminate].
      exact (IH l1 l' rest (step_reachable _ _ _ R S) E).
Qed.

Lemma Stop_reachable (p : Ping.Pinger A) :
  Ping.reachable pf p ->
  exists p', Ping.Stop p = Some p' /\ Ping.stopC p' = true /\
             Ping.Stop p' = Some p' /\
             Ping.durations p' = Ping.durations p /\
             Ping.failedTotal p' = Ping.failedTotal p /\
             Ping.out p' = Ping.out p.
Proof.
  intros R. pose proof (reachable_once_iff_closed pf A p R) as Inv.
  unfold Ping.Stop at 1. destruct (Ping.stopOnce p) eqn:O.
  - exists p. repeat split; try congruence.
    unfold Ping.Stop. rewrite O. reflexivity.
  - rewrite <- Inv. eexists. split; [reflexivity|]. cbn. repeat split.
Qed.

(** X7. Whenever the loop is left, [Ping] returns (its deferred [Stop] does
    not panic, also after stop calls from outside), the stop channel is then
    closed, a further [Stop] changes nothing, and the statistics and the
    output are those the loop ended with. *)
Theorem Ping_returns_with_channel_closed
        (terminal : bool) (interval counter : Z)
        (es rest : list Ping.event) (l : Ping.loop A) :
  let p0 := Ping.NewPinger A terminal interval counter in
  Ping.run pf (Ping.start p0) es = Some (l, rest) ->
  Ping.stop l = true ->
  exists p',
    Ping.Ping pf p0 es = Some p' /\
    Ping.Done p' = true /\
    Ping.Stop p' = Some p' /\
    Ping.durations p' = Ping.durations (Ping.pinger l) /\
    Ping.failedTotal p' = Ping.failedTotal (Ping.pinger l) /\
    Ping.out p' = Ping.out (Ping.pinger l).
Proof.
  intros p0 E S.
  assert (R : Ping.reachable pf (Ping.pinger l)).
  { apply (run_reachable es (Ping.start p0) l rest); [apply Ping.reach_new|exact E]. }
  destruct (Stop_reachable _ R) as (p' & E1 & C & E2 & D & Fl & O).
  exists p'. unfold Ping.Ping. rewrite E, S. repeat split; assumption.
Qed.

(** X8. A call of [Stop] from outside followed by the receive from the stop
    channel ends the running loop at once: no further event is consumed and
    neither the statistics nor the output change; on an open channel that
    receive cannot happen. *)
Theorem Stop_signal_ends_the_loop (l : Ping.loop A) (more : list Ping.event) :
  Ping.reachable pf (Ping.pinger l) ->
  Ping.stop l = false ->
  exists l',
    Ping.run pf l (Ping.ExternalStop :: Ping.DoneC :: more) = Some (l', more) /\
    Ping.stop l' = true /\
    Ping.Done (Ping.pinger l') = true /\
    Ping.durations (Ping.pinger l') = Ping.durations (Ping.pinger l) /\
    Ping.failedTotal (Ping.pinger l') = Ping.failedTotal (Ping.pinger l) /\
    Ping.out (Ping.pinger l') = Ping.out (Ping.pinger l) /\
    (Ping.Done (Ping.pinger l) = false ->
     Ping.run pf l (Ping.DoneC :: more) = None).
Proof.
  intros R S.
  destruct (Stop_reachable _ R) as (p' & E1 & C & E2 & D & Fl & O).
  eexists. split.
  - cbn [Ping.run Ping.step]. rewrite S, E1. cbn [Ping.stop Ping.pinger Ping.Done].
    unfold Ping.Done. rewrite C. 
    destruct more; reflexivity.
  - cbn [Ping.stop Ping.pinger]. unfold Ping.Done. repeat split; try assumption.
    intros N. cbn [Ping.run Ping.step]. rewrite S. unfold Ping.Done. rewrite N.
    reflexivity.
Qed.

Lemma countErrors_bound (hist : list Ping.Stats) :
  0 <= Trace.countErrors hist <= Z.of_nat (List.length hist).
Proof.
  unfold Trace.countErrors. pose proof (filter_length_le Trace.hasError hist). lia.
Qed.

Lemma countErrors_app (h1 h2 : list Ping.Stats) :
  Trace.countErrors (h1 ++ h2) = Trace.countErrors h1 + Trace.countErrors h2.
Proof. unfold Trace.countErrors. rewrite filter_app, length_app. lia. Qed.

Lemma step_counts (l l' : Ping.loop A) (e : Ping.event) (hist : list Ping.Stats) :
  Z.of_nat (List.length hist) < Int64.max_int ->
  Trace.counts l hist ->
  Ping.step pf l e = Some l' ->
  Trace.counts l' (hist ++ Trace.timers [e]).
Proof.
  intros B (Hc & Hf) E. destruct e as [stats| |]; cbn [Trace.timers].
  - cbn [Ping.step] in E. injection E as <-.
    destruct hist as [|h0 hist].
    + cbn in Hf. unfold Trace.counts, Ping.onTimer. rewrite Hf.
      cbn [negb Ping.pinger Ping.hasDiscardedFirst].
      pose proof (printPingResult_fields pf A (Ping.pinger l) stats) as (_ & _ & Fl & _).
      unfold Ping.getFailedTotal in *. rewrite Fl. split; [exact Hc|reflexivity].
    + cbn in Hf. unfold Trace.counts, Ping.onTimer. rewrite Hf.
      cbn [negb Ping.pinger Ping.hasDiscardedFirst].
      pose proof (printPingResult_fields pf A
                    (Ping.logStats (Ping.pinger l) stats) stats) as (_ & _ & Fl & _).
      split; [|rewrite length_app; cbn;
               destruct (List.length hist + 1)%nat eqn:X; [lia|reflexivity]].
      unfold Ping.getFailedTotal at 1. rewrite Fl.
      change (Ping.failedTotal (Ping.logStats (Ping.pinger l) stats))
        with (Ping.getFailedTotal (Ping.logStats (Ping.pinger l) stats)).
      rewrite failedTotal_logStats, Hc. cbn [tl app].
      rewrite countErrors_app.
      pose proof (countErrors_bound hist) as Bd. cbn [List.length] in B.
      assert (One : Trace.countErrors [stats]
                    = if Trace.hasError stats then 1 else 0).
      { unfold Trace.countErrors. cbn [filter]. destruct (Trace.hasError stats); reflexivity. }
      rewrite One. unfold Trace.hasError.
      destruct (Ping.Error stats); [|lia].
      unfold Int64.add. rewrite Int64_wrap_id; [lia|].
      unfold Int64.in_range, Int64.min_int, Int64.max_int in *. lia.
  - rewrite app_nil_r. cbn [Ping.step] in E.
    destruct (Ping.Done (Ping.pinger l)); [|discriminate]. injection E as <-.
    split; assumption.
  - rewrite app_nil_r. cbn [Ping.step] in E.
    destruct (Ping.Stop (Ping.pinger l)) as [p'|] eqn:S; [|discriminate].
    injection E as <-. apply Stop_closes in S as (_ & _ & _ & Fl & _ & _).
    unfold Trace.counts, Ping.getFailedTotal in *. cbn [Ping.pinger Ping.hasDiscardedFirst].
    rewrite Fl. split; assumption.
Qed.

Lemma length_timers (es : list Ping.event) :
  (List.length (Trace.timers es) <= List.length es)%nat.
Proof.
  induction es as [|e es IH]; [apply Nat.le_refl|].
  destruct e; cbn; lia.
Qed.

Lemma run_counts (es : list Ping.event) : forall (l l' : Ping.loop A) hist rest,
  Z.of_nat (List.length hist + List.length es) <= Int64.max_int ->
  Trace.counts l hist ->
  Ping.run pf l es = Some (l', rest) ->
  exists taken, es = taken ++ rest /\ Trace.counts l' (hist ++ Trace.timers taken).
Proof.
  induction es as [|e es IH]; intros l l' hist rest B R E.
  - cbn in E. injection E as <- <-. exists []. split; [reflexivity|].
    cbn [Trace.timers]. rewrite app_nil_r. exact R.
  - cbn [Ping.run] in E. destruct (Ping.stop l).
    + injection E as <- <-. exists []. split; [reflexivity|].
      cbn [Trace.timers]. rewrite app_nil_r. exact R.
    + destruct (Ping.step pf l e) as [l1|] eqn:S; [|discriminate].
      cbn [List.length] in B.
      assert (R1 : Trace.counts l1 (hist ++ Trace.timers [e]))
        by (apply (step_counts l l1 e hist); [lia|exact R|exact S]).
      assert (B1 : Z.of_nat (List.length (hist ++ Trace.timers [e])
                             + List.length es) <= Int64.max_int).
      { rewrite length_app. pose proof (length_timers [e]) as Lt.
        cbn [List.length] in Lt. lia. }
      destruct (IH l1 l' _ rest B1 R1 E) as (taken & -> & R').
      exists (e :: taken). split; [reflexivity|].
      change (e :: taken) with ([e] ++ taken).
      rewrite timers_app, app_assoc. exact R'.
Qed.

(** X9. After any run of fewer than 2^63 events the failure counter is the
    number of stored probes, the first probe left out, whose [Error] is not
    nil, whatever their [Connected] flag says, and the success count is the
    number of the others. *)
Theorem Ping_counts_the_errors_logged
        (terminal : bool) (interval counter : Z)
        (es rest : list Ping.event) (l : Ping.loop A) :
  Z.of_nat (List.length es) <= Int64.max_int ->
  Ping.run pf (Ping.start (Ping.NewPinger A terminal interval counter)) es
  = Some (l, rest) ->
  exists taken,
    es = taken ++ rest /\
    Ping.getFailedTotal (Ping.pinger l) = Trace.countErrors (tl (Trace.timers taken)) /\
    Ping.getSuccessTotal (Ping.pinger l)
    = Z.max 0 (Z.of_nat (List.length (Trace.timers taken)) - 1)
      - Trace.countErrors (tl (Trace.timers taken)).
Proof.
  intros B E.
  assert (R0 : Trace.counts (Ping.start (Ping.NewPinger A terminal interval counter)) [])
    by (split; reflexivity).
  destruct (run_counts es _ _ [] rest B R0 E) as (taken & -> & Hc & _).
  cbn [app] in Hc. exists taken. split; [reflexivity|]. split; [exact Hc|].
  assert (Q0 : Trace.records
                 (Ping.start (Ping.NewPinger A terminal interval counter)) [])
    by (repeat split).
  destruct (run_records (taken ++ rest) _ _ [] rest Q0 E)
    as (taken' & Et & _ & Hd & _).
  apply app_inv_tail in Et. subst taken'. cbn [app] in Hd.
  assert (T : Ping.getTotal (Ping.pinger l)
              = Z.max 0 (Z.of_nat (List.length (Trace.timers taken)) - 1)).
  { unfold Ping.getTotal. rewrite Hd, length_map.
    destruct (Trace.timers taken); cbn [tl List.length]; lia. }
  unfold Ping.getSuccessTotal, Int64.sub. rewrite Hc, T.
  pose proof (countErrors_bound (tl (Trace.timers taken))) as Bd.
  pose proof (length_timers taken) as Lt. rewrite length_app in B.
  assert (Ltl : Z.of_nat (List.length (tl (Trace.timers taken)))
                = Z.max 0 (Z.of_nat (List.length (Trace.timers taken)) - 1)).
  { destruct (Trace.timers taken); cbn [tl List.length]; lia. }
  apply Int64_wrap_id.
  unfold Int64.in_range, Int64.min_int, Int64.max_int in *. lia.
Qed.
End TraceFacts.

(** ** The report on the stored samples *)

Section ReportFacts.

Variable A : Float.Arith.

Lemma Permutation_insert (a : Float.F A) (l : list (Float.F A)) :
  Permutation (Stat.insert A a l) (a :: l).
Proof.
  induction l as [|b r IH]; [apply Permutation_refl|].
  cbn. destruct (Stat.less A a b); [apply Permutation_refl|].
  eapply Permutation_trans; [apply perm_skip; exact IH|apply perm_swap].
Qed.

Lemma Permutation_Sort (l : list (Float.F A)) : Permutation (Stat.Sort A l) l.
Proof.
  induction l as [|a r IH]; [apply Permutation_refl|].
  change (Stat.Sort A (a :: r)) with (Stat.insert A a (Stat.Sort A r)).
  eapply Permutation_trans; [apply Permutation_insert|apply perm_skip; exact IH].
Qed.


Lemma empiricalLoop_In (x : list (Float.F A)) : forall fidx cumsum r,
  Stat.empiricalLoop A fidx cumsum x = Some r -> In r x.
Proof.
  induction x as [|xi rest IH]; intros fidx cumsum r E; [discriminate|].
  cbn [Stat.empiricalLoop] in E. cbv zeta in E.
  destruct (Float.fle A fidx _).
  - injection E as <-. left. reflexivity.
  - right. exact (IH _ _ _ E).
Qed.

Lemma Quantile_Empirical_In (q : Float.F A) (x : list (Float.F A))
        (r : Float.F A) :
  Stat.Quantile A q Stat.Empirical x = Some r ->
  Stat.HasNaN A x = false ->
  In r x.
Proof.
  unfold Stat.Quantile. intros E N. rewrite N in E.
  destruct (negb (Float.fle A _ q && _)); [discriminate|].
  destruct (List.length x =? 0)%nat; [discriminate|].
  destruct (negb (Stat.Float64sAreSorted A x)); [discriminate|].
  exact (empiricalLoop_In _ _ _ _ E).
Qed.

Lemma HasNaN_Permutation (l l' : list (Float.F A)) :
  Permutation l l' -> Stat.HasNaN A l = Stat.HasNaN A l'.
Proof.
  intros P. unfold Stat.HasNaN.
  destruct (existsb (Float.fisNaN A) l) eqn:E, (existsb (Float.fisNaN A) l') eqn:E';
    try reflexivity.
  - apply existsb_exists in E as (x & I & N).
    assert (existsb (Float.fisNaN A) l' = true).
    { apply existsb_exists. exists x. split; [|exact N].
      eapply Permutation_in; eassumption. }
    congruence.
  - apply existsb_exists in E' as (x & I & N).
    assert (existsb (Float.fisNaN A) l = true).
    { apply existsb_exists. exists x. split; [|exact N].
      eapply Permutation_in; [apply Permutation_sym|]; eassumption. }
    congruence.
Qed.

Lemma Summarize_inv (p p' : Ping.Pinger A) (sm : Ping.Summary) :
  Ping.Summarize p = Some (p', sm) ->
  p' = Ping.sortDurations p /\
  exists mn mx q50 q95 q99,
    Stat.Quantile A (Float.ofInt64 A 0) Stat.Empirical (Ping.durations p') = Some mn /\
    Stat.Quantile A (Float.ofInt64 A 1) Stat.Empirical (Ping.durations p') = Some mx /\
    Stat.Quantile A (Float.ofDecimal A 5 10) Stat.LinInterp (Ping.durations p') = Some q50 /\
    Stat.Quantile A (Float.ofDecimal A 95 100) Stat.LinInterp (Ping.durations p') = Some q95 /\
    Stat.Quantile A (Float.ofDecimal A 99 100) Stat.LinInterp (Ping.durations p') = Some q99 /\
    sm = {| Ping.probes := Ping.getTotal p';
            Ping.successful := Ping.getSuccessTotal p';
            Ping.failed := Ping.getFailedTotal p';
            Ping.Minimum := Float.toInt64 A mn;
            Ping.Maximum := Float.toInt64 A mx;
            Ping.Average := if negb (Ping.getTotal p' =? 0)
                            then Ping.getAvgDuration p' else 0;
            Ping.p50 := Float.toInt64 A q50;
            Ping.p95 := Float.toInt64 A q95;
            Ping.p99 := Float.toInt64 A q99 |}.
Proof.
  unfold Ping.Summarize, Ping.getMinDuration, Ping.getMaxDuration, Ping.getQuantile.
  cbv zeta. set (q := Ping.sortDurations p).
  destruct (Stat.Quantile A (Float.ofInt64 A 0) _ _) as [mn|] eqn:E0;
    [|discriminate].
  destruct (Stat.Quantile A (Float.ofInt64 A 1) _ _) as [mx|] eqn:E1;
    [|discriminate].
  destruct (Stat.Quantile A (Float.ofDecimal A 5 10) _ _) as [q50|] eqn:E2;
    [|discriminate].
  destruct (Stat.Quantile A (Float.ofDecimal A 95 100) _ _) as [q95|] eqn:E3;
    [|discriminate].
  destruct (Stat.Quantile A (Float.ofDecimal A 99 100) _ _) as [q99|] eqn:E4;
    [|discriminate].
  cbn [option_map]. intros [= <- <-]. split; [reflexivity|].
  exists mn, mx, q50, q95, q99. repeat split; assumption.
Qed.


(** X11. Whatever the arithmetic, the minimum and the maximum of a report
    are the conversions of two of the stored durations (none of which is a
    NaN), never interpolated values. *)
Theorem Summarize_extremes_are_samples (p p' : Ping.Pinger A) (sm : Ping.Summary) :
  Ping.Summarize p = Some (p', sm) ->
  Stat.HasNaN A (Ping.durations p) = false ->
  exists lo hi,
    In lo (Ping.durations p) /\ In hi (Ping.durations p) /\
    Ping.Minimum sm = Float.toInt64 A lo /\
    Ping.Maximum sm = Float.toInt64 A hi.
Proof.
  intros E N. destruct (Summarize_inv p p' sm E)
    as (-> & mn & mx & q50 & q95 & q99 & Emn & Emx & _ & _ & _ & ->).
  cbn [Ping.sortDurations Ping.durations Ping.Minimum Ping.Maximum] in *.
  pose proof (Permutation_Sort (Ping.durations p)) as P.
  rewrite <- (HasNaN_Permutation _ _ P) in N.
  exists mn, mx. repeat split.
  - eapply Permutation_in; [exact P|]. exact (Quantile_Empirical_In _ _ _ Emn N).
  - eapply Permutation_in; [exact P|]. exact (Quantile_Empirical_In _ _ _ Emx N).
Qed.

End ReportFacts.

(** ** The average of the legacy result *)

Lemma Int64_quot_in_range (a b : Z) :
  b <> 0 -> Int64.in_range a -> ~ (a = Int64.min_int /\ b = -1) ->
  Int64.in_range (Z.quot a b).
Proof.
  intros Hb Ha Ho. unfold Int64.in_range, Int64.min_int, Int64.max_int in *.
  assert (Habs : Z.abs (Z.quot a b) = Z.abs a / Z.abs b).
  { rewrite <- Z.quot_abs by assumption. apply Z.quot_div_nonneg; lia. }
  pose proof (Z.mul_div_le (Z.abs a) (Z.abs b) ltac:(lia)) as Hm.
  pose proof (Z.div_pos (Z.abs a) (Z.abs b) ltac:(lia) ltac:(lia)) as Hp.
  destruct (Z.eq_dec b (-1)) as [E|N].
  - subst b. pose proof (Z.quot_opp_r a 1 ltac:(lia)) as Q.
    rewrite Z.quot_1_r in Q. change (- (1)) with (-1) in Q. rewrite Q. lia.
  - destruct (Z.eq_dec b 1) as [E|N1]; [subst b; rewrite Z.quot_1_r; lia|].
    assert (2 <= Z.abs b) by lia. nia.
Qed.

(** X12. [Result.Avg] is the mean truncated toward zero: multiplied back by
    the success count it differs from the total by less than that count and
    never exceeds the total in magnitude. *)
Theorem Avg_is_the_truncated_mean (r : Result.Result) :
  Result.SuccessCounter r <> 0 ->
  Int64.in_range (Result.TotalDuration r) ->
  ~ (Result.TotalDuration r = Int64.min_int /\ Result.SuccessCounter r = -1) ->
  exists avg,
    Result.Avg r = Some avg /\
    Z.abs (Result.TotalDuration r - avg * Result.SuccessCounter r)
    < Z.abs (Result.SuccessCounter r) /\
    Z.abs (avg * Result.SuccessCounter r) <= Z.abs (Result.TotalDuration r) /\
    (0 <= Result.TotalDuration r -> 0 < Result.SuccessCounter r ->
     0 <= avg /\ avg * Result.SuccessCounter r <= Result.TotalDuration r).
Proof.
  intros Hs Hr Ho.
  exists (Z.quot (Result.TotalDuration r) (Result.SuccessCounter r)).
  split.
  { unfold Result.Avg, Int64.div.
    destruct (Z.eqb_spec (Result.SuccessCounter r) 0) as [E|_]; [contradiction|].
    f_equal. apply Int64_wrap_id. apply Int64_quot_in_range; assumption. }
  set (a := Result.TotalDuration r) in *. set (b := Result.SuccessCounter r) in *.
  clearbody a b.
  pose proof (Z.quot_rem' a b) as Q.
  pose proof (Z.rem_bound_abs a b Hs) as B.
  assert (M : Z.abs (a ÷ b * b) <= Z.abs a).
  { pose proof (Z.mul_quot_le a b). pose proof (Z.mul_quot_ge a b).
    destruct (Z_le_gt_dec 0 a).
    - specialize (H ltac:(lia) Hs). lia.
    - specialize (H0 ltac:(lia) Hs). lia. }
  split; [replace (a - a ÷ b * b) with (Z.rem a b) by lia; exact B|].
  split; [exact M|].
  intros Pa Pb. split.
  - apply Z.quot_pos; lia.
  - pose proof (Z.mul_quot_le a b Pa Hs). lia.
Qed.

(** ** The properties above at concrete inputs *)

Section Scenarios.

Local Open Scope string_scope.

Lemma FormatMeta_order_independent_witness :
  Meta.FormatMeta [("status", "200"); ("proto", "HTTP/1.1")]
  = Meta.FormatMeta [("proto", "HTTP/1.1"); ("status", "200")].
Proof.
  apply (FormatMeta_order_independent
           [("status", "200"); ("proto", "HTTP/1.1")]
           [("proto", "HTTP/1.1"); ("status", "200")]).
  - simpl. repeat constructor; simpl; intuition discriminate.
  - apply perm_swap.
Defined.

Example FormatMeta_two_entries :
  Meta.FormatMeta [("status", "200"); ("proto", "HTTP/1.1")]
  = Some "proto=HTTP/1.1 status=200" /\
  Meta.FormatMeta [] = Some "".
Proof. split; reflexivity. Qed.

End Scenarios.

(** A run in which [Stop] is called from outside while probes go on: the
    warm-up, a probe that connects, the stop call, a probe the selection
    still takes and that comes back cancelled, and the receive from the stop
    channel; one more tick is left unconsumed. *)
Lemma Ping_records_every_probe_but_the_first_witness :
  let p0 := Ping.NewPinger Float.float64 false 0 0 in
  let rest := [Ping.Timer (Ping.connected 10000000)] in
  let es := [Ping.Timer (Ping.connected 30000000);
             Ping.Timer (Ping.connected 10000000);
             Ping.ExternalStop;
             Ping.Timer (Ping.cancelled 5000000);
             Ping.DoneC] ++ rest in
  let l := match Ping.run GoError.linux (Ping.start p0) es with
           | Some (l, _) => l
           | None => Ping.start p0
           end in
  exists taken,
    es = taken ++ rest /\
    map Ping.shown (Ping.out (Ping.pinger l)) = Trace.timers taken /\
    Ping.durations (Ping.pinger l)
    = map (fun stats => Float.ofInt64 Float.float64 (Ping.Duration stats))
          (tl (Trace.timers taken)) /\
    Ping.getTotal (Ping.pinger l)
    = Z.max 0 (Z.of_nat (List.length (Trace.timers taken)) - 1).
Proof.
  intros p0 rest es l.
  refine (Ping_records_every_probe_but_the_first GoError.linux Float.float64
            false 0 0 es rest l _).
  reflexivity.
Defined.

Lemma Ping_never_exceeds_counter_witness :
  let p0 := Ping.NewPinger Float.float64 false 0 2 in
  let rest := [Ping.Timer (Ping.connected 10000000)] in
  let es := [Ping.Timer (Ping.connected 30000000);
             Ping.Timer (Ping.connected 10000000);
             Ping.ExternalStop;
             Ping.Timer (Ping.cancelled 5000000)] ++ rest in
  let l := match Ping.run GoError.linux (Ping.start p0) es with
           | Some (l, _) => l
           | None => Ping.start p0
           end in
  Ping.getTotal (Ping.pinger l) <= 2 /\
  (Ping.getTotal (Ping.pinger l) = 2 -> Ping.stop l = true).
Proof.
  intros p0 rest es l.
  refine (Ping_never_exceeds_counter GoError.linux Float.float64 false 0 2
            es rest l _ _ _).
  - lia.
  - unfold Int64.in_range, Int64.min_int, Int64.max_int. lia.
  - reflexivity.
Defined.

Lemma Ping_returns_with_channel_closed_witness :
  let p0 := Ping.NewPinger Float.float64 false 0 0 in
  let rest := [Ping.Timer (Ping.connected 10000000)] in
  let es := [Ping.Timer (Ping.connected 30000000);
             Ping.ExternalStop;
             Ping.Timer (Ping.cancelled 5000000);
             Ping.DoneC] ++ rest in
  let l := match Ping.run GoError.linux (Ping.start p0) es with
           | Some (l, _) => l
           | None => Ping.start p0
           end in
  exists p',
    Ping.Ping GoError.linux p0 es = Some p' /\
    Ping.Done p' = true /\
    Ping.Stop p' = Some p' /\
    Ping.durations p' = Ping.durations (Ping.pinger l) /\
    Ping.failedTotal p' = Ping.failedTotal (Ping.pinger l) /\
    Ping.out p' = Ping.out (Ping.pinger l).
Proof.
  intros p0 rest es l.
  refine (Ping_returns_with_channel_closed GoError.linux Float.float64 false 0 0
            es rest l _ _).
  - reflexivity.
  - reflexivity.
Defined.

Lemma Stop_signal_ends_the_loop_witness :
  let l := Ping.start (Ping.NewPinger Float.float64 false 0 0) in
  let more := [Ping.Timer (Ping.connected 10000000)] in
  exists l',
    Ping.run GoError.linux l (Ping.ExternalStop :: Ping.DoneC :: more)
    = Some (l', more) /\
    Ping.stop l' = true /\
    Ping.Done (Ping.pinger l') = true /\
    Ping.durations (Ping.pinger l') = Ping.durations (Ping.pinger l) /\
    Ping.failedTotal (Ping.pinger l') = Ping.failedTotal (Ping.pinger l) /\
    Ping.out (Ping.pinger l') = Ping.out (Ping.pinger l) /\
    (Ping.Done (Ping.pinger l) = false ->
     Ping.run GoError.linux l (Ping.DoneC :: more) = None).
Proof.
  intros l more.
  refine (Stop_signal_ends_the_loop GoError.linux Float.float64 l more _ _).
  - apply Ping.reach_new.
  - reflexivity.
Defined.

Lemma Ping_counts_the_errors_logged_witness :
  let p0 := Ping.NewPinger Float.float64 false 0 0 in
  let rest := [Ping.Timer (Ping.connected 10000000)] in
  let es := [Ping.Timer (Ping.cancelled 1000000);
             Ping.Timer (Ping.connected 10000000);
             Ping.ExternalStop;
             Ping.Timer (Ping.cancelled 5000000);
             Ping.DoneC] ++ rest in
  let l := match Ping.run GoError.linux (Ping.start p0) es with
           | Some (l, _) => l
           | None => Ping.start p0
           end in
  exists taken,
    es = taken ++ rest /\
    Ping.getFailedTotal (Ping.pinger l)
    = Trace.countErrors (tl (Trace.timers taken)) /\
    Ping.getSuccessTotal (Ping.pinger l)
    = Z.max 0 (Z.of_nat (List.length (Trace.timers taken)) - 1)
      - Trace.countErrors (tl (Trace.timers taken)).
Proof.
  intros p0 rest es l.
  refine (Ping_counts_the_errors_logged GoError.linux Float.float64 false 0 0
            es rest l _ _).
  - vm_compute. discriminate.
  - reflexivity.
Defined.


Lemma Summarize_extremes_are_samples_witness :
  let p := Ping.logStats
             (Ping.logStats
                (Ping.logStats (Ping.NewPinger Float.float64 false 0 0)
                   (Ping.connected 30000000))
                (Ping.cancelled 10000000))
             (Ping.connected 20000000) in
  let p' := Ping.sortDurations p in
  let sm := {| Ping.probes := 3; Ping.successful := 2; Ping.failed := 1;
               Ping.Minimum := 10000000; Ping.Maximum := 30000000;
               Ping.Average := 20000000; Ping.p50 := 15000000;
               Ping.p95 := 28499999; Ping.p99 := 29699999 |} in
  exists lo hi,
    In lo (Ping.durations p) /\ In hi (Ping.durations p) /\
    Ping.Minimum sm = Float.toInt64 Float.float64 lo /\
    Ping.Maximum sm = Float.toInt64 Float.float64 hi.
Proof.
  intros p p' sm.
  refine (Summarize_extremes_are_samples Float.float64 p p' sm _ _).
  - reflexivity.
  - reflexivity.
Defined.

Lemma Avg_is_the_truncated_mean_witness :
  let r := {| Result.Counter := 4; Result.SuccessCounter := 3;
              Result.MinDuration := 10; Result.MaxDuration := 30;
              Result.TotalDuration := 61 |} in
  exists avg,
    Result.Avg r = Some avg /\
    Z.abs (Result.TotalDuration r - avg * Result.SuccessCounter r)
    < Z.abs (Result.SuccessCounter r) /\
    Z.abs (avg * Result.SuccessCounter r) <= Z.abs (Result.TotalDuration r) /\
    (0 <= Result.TotalDuration r -> 0 < Result.SuccessCounter r ->
     0 <= avg /\ avg * Result.SuccessCounter r <= Result.TotalDuration r).
Proof.
  intros r.
  refine (Avg_is_the_truncated_mean r _ _ _).
  - simpl. lia.
  - unfold Int64.in_range, Int64.min_int, Int64.max_int. simpl. lia.
  - simpl. unfold Int64.min_int. lia.
Defined.
